(** * YouTube Intelligence MCP server: a shallow embedding of the tool
      registry, the record normalizer and the three tool handlers.

    Source files embedded here:
      - models/youtube_models.py     (VideoStats, VideoData, SearchQuery, SearchResult)
      - services/youtube_service.py  (YouTubeService)
      - tools/video_search_tool.py, tools/market_analysis_tool.py,
        tools/system_status_tool.py  (the three handlers)
      - mcp_server.py                (list_tools, call_tool, initialize_server)
      - config.py                    (Config)

    Conventions.  Python [int] is [Z].  Python [str] is [string]; the
    case mapping [lower] is the ASCII one.  A Python [float] is denoted by the
    rational it is meant to compute ([Q]); neither rounding nor the finite
    range of floats is modelled.  A
    computation that may raise is a value of [result]; [try ... except
    Exception] is [try_except].  Python dictionaries are association lists in
    insertion order.  Calls into third-party libraries (isodate, datetime,
    the Google API client, psutil, pandas, TextBlob, number formatting) are
    fields of the record [Externals], over which every theorem is
    universally quantified. *)

From Stdlib Require Import ZArith QArith List String Ascii Bool Lia.
From Stdlib Require Import DecimalString Qround.
Import ListNotations.

Open Scope string_scope.
Open Scope Z_scope.

Set Warnings "-register-all".

(* ================================================================== *)
(** * Python runtime: exceptions, strings, values *)
(* ================================================================== *)

(** Outcome of a Python computation: a value, or a raised [Exception]
    carried as its [str(e)]. *)
Inductive result (A : Type) : Type :=
| Ok (a : A)
| Raise (e : string).
Arguments Ok {A} a.
Arguments Raise {A} e.

Definition bind {A B : Type} (m : result A) (k : A -> result B) : result B :=
  match m with
  | Ok a => k a
  | Raise e => Raise e
  end.

Notation "x <- m ;; k" := (bind m (fun x => k))
  (at level 61, m at next level, right associativity).

(** [try: body  except Exception as e: handler(e)]. *)
Definition try_except {A : Type} (body : result A) (handler : string -> A) : A :=
  match body with
  | Ok a => a
  | Raise e => handler e
  end.

(** [d[key]] on an optional field: [KeyError] when the key is absent. *)
Definition subscript {A : Type} (key : string) (field : option A) : result A :=
  match field with
  | Some a => Ok a
  | None => Raise ("'" ++ key ++ "'")
  end.

(** [d.get(key, default)] on an optional field. *)
Definition get_default {A : Type} (field : option A) (default : A) : A :=
  match field with
  | Some a => a
  | None => default
  end.

(** ** Strings *)

(** [needle in hay] for two [str]. *)
Fixpoint contains (needle hay : string) : bool :=
  String.prefix needle hay ||
  match hay with
  | EmptyString => false
  | String _ hay' => contains needle hay'
  end.

Definition lower_ascii (c : ascii) : ascii :=
  let n := nat_of_ascii c in
  if ((65 <=? n)%nat && (n <=? 90)%nat)%bool then ascii_of_nat (n + 32) else c.

(** [s.lower()]. *)
Fixpoint lower (s : string) : string :=
  match s with
  | EmptyString => EmptyString
  | String c s' => String (lower_ascii c) (lower s')
  end.

(** [sep.join(parts)]. *)
Fixpoint join (sep : string) (parts : list string) : string :=
  match parts with
  | [] => ""
  | [p] => p
  | p :: ps => p ++ sep ++ join sep ps
  end.

(** [s.replace(c, by)] for a one-character pattern. *)
Fixpoint replace_char (c : ascii) (by_ : string) (s : string) : string :=
  match s with
  | EmptyString => EmptyString
  | String a s' =>
      if Ascii.eqb a c then by_ ++ replace_char c by_ s'
      else String a (replace_char c by_ s')
  end.

(** [str(n)] for an [int]. *)
Definition str_int (n : Z) : string := NilEmpty.string_of_int (Z.to_int n).

(** [repr(s)] for a [str] without quotes, backslashes or non-printable
    characters (every key of the tool registry is one). *)
Definition repr_str (s : string) : string := "'" ++ s ++ "'".

(** [str(l)] for a list of such strings. *)
Definition str_list (l : list string) : string :=
  "[" ++ join ", " (map repr_str l) ++ "]".

(** ** Dynamic values: what handler results are made of *)

Inductive value : Type :=
| VNone
| VBool (b : bool)
| VInt (n : Z)
| VFloat (q : Q)
| VStr (s : string)
| VList (l : list value)
| VDict (d : list (string * value)).

Definition dict := list (string * value).

(** [d.get(key)] as an option. *)
Fixpoint lookup (key : string) (d : dict) : option value :=
  match d with
  | [] => None
  | (k, v) :: d' => if String.eqb k key then Some v else lookup key d'
  end.

(** [d.get(key, default)]. *)
Definition dict_get (d : dict) (key : string) (default : value) : value :=
  get_default (lookup key d) default.

(** Truth value testing. *)
Definition truthy (v : value) : bool :=
  match v with
  | VNone => false
  | VBool b => b
  | VInt n => negb (n =? 0)
  | VFloat q => negb (Qeq_bool q 0)
  | VStr s => negb (String.eqb s "")
  | VList l => match l with [] => false | _ => true end
  | VDict d => match d with [] => false | _ => true end
  end.

(* ================================================================== *)
(** * models/youtube_models.py *)
(* ================================================================== *)

Inductive VideoCategory : Type :=
| EDUCATION | ENTERTAINMENT | TECHNOLOGY | GAMING | MUSIC | NEWS | SPORTS | OTHER.

(** [VideoCategory.value]. *)
Definition category_value (c : VideoCategory) : string :=
  match c with
  | EDUCATION => "education"
  | ENTERTAINMENT => "entertainment"
  | TECHNOLOGY => "technology"
  | GAMING => "gaming"
  | MUSIC => "music"
  | NEWS => "news"
  | SPORTS => "sports"
  | OTHER => "other"
  end.

Record VideoStats : Type := mkVideoStats {
  view_count : Z;
  like_count : Z;
  comment_count : Z;
  duration_seconds : Z
}.

(** [a / b] on two [int]: raises [ZeroDivisionError] on a zero divisor.
    (The [OverflowError] of a quotient beyond the range of floats belongs
    to what the rational reading of floats leaves out.) *)
Definition truediv (a b : Z) : result Q :=
  if b =? 0 then Raise "division by zero"
  else Ok (inject_Z a / inject_Z b)%Q.

(** The property [VideoStats.engagement_rate], as a computation that may
    raise. *)
Definition engagement_rate_py (s : VideoStats) : result Q :=
  if view_count s =? 0 then Ok 0%Q
  else truediv (like_count s + comment_count s) (view_count s).

(** The value of the property (0 stands in if it raised, which
    [engagement_rate_total] shows it never does). *)
Definition engagement_rate (s : VideoStats) : Q :=
  try_except (engagement_rate_py s) (fun _ => 0%Q).

(** [datetime]: calendar fields and, for an aware instant, the UTC offset
    in minutes. *)
Record datetime : Type := mkDatetime {
  year : Z; month : Z; day : Z;
  hour : Z; minute : Z; second : Z; microsecond : Z;
  utcoffset : option Z
}.

(** [VideoData].  The three analysis fields ([sentiment_score],
    [credibility_score], [trending_score]) keep their default [None] in
    every construction of the repository and are left out. *)
Record VideoData : Type := mkVideoData {
  video_id : string;
  title : string;
  description : string;
  channel_id : string;
  channel_title : string;
  published_at : datetime;
  duration : string;
  category : VideoCategory;
  stats : VideoStats;
  tags : list string;
  thumbnail_url : option string
}.

Record SearchQuery : Type := mkSearchQuery {
  query : string;
  max_results : Z;
  region_code : string;
  language : string;
  published_after : option datetime;
  published_before : option datetime;
  order : string
}.

Record SearchResult : Type := mkSearchResult {
  sr_query : SearchQuery;
  videos : list VideoData;
  total_results : Z
}.

Definition Qsum (l : list Q) : Q := fold_left Qplus l 0%Q.

(** The property [SearchResult.average_engagement]. *)
Definition average_engagement (r : SearchResult) : Q :=
  match videos r with
  | [] => 0%Q
  | vs => (Qsum (map (fun v => engagement_rate (stats v)) vs)
           / inject_Z (Z.of_nat (List.length vs)))%Q
  end.

(* ================================================================== *)
(** * The provider's raw resources *)
(* ================================================================== *)

(** A [videos.list] item as the handlers read it: every key the code
    looks up, optional because the code either subscripts it (and may get
    a [KeyError]) or reads it with [.get] and a default. *)
Record RawThumbnail : Type := mkRawThumbnail { url : option string }.
Record RawThumbnails : Type := mkRawThumbnails { high : option RawThumbnail }.

Record RawSnippet : Type := mkRawSnippet {
  raw_title : option string;
  raw_description : option string;
  raw_channelId : option string;
  raw_channelTitle : option string;
  raw_publishedAt : option string;
  raw_tags : option (list string);
  raw_thumbnails : option RawThumbnails
}.

Record RawStatistics : Type := mkRawStatistics {
  viewCount : option string;
  likeCount : option string;
  commentCount : option string
}.

Record RawContentDetails : Type := mkRawContentDetails {
  raw_duration : option string
}.

Record RawItem : Type := mkRawItem {
  raw_id : option string;
  snippet : option RawSnippet;
  statistics : option RawStatistics;
  contentDetails : option RawContentDetails
}.

(** The keyword arguments of [search().list(...)]. *)
Record SearchParams : Type := mkSearchParams {
  part : string;
  q : string;
  type_ : string;
  maxResults : Z;
  regionCode : string;
  relevanceLanguage : string;
  order_ : string;
  publishedAfter : option string;
  publishedBefore : option string
}.

(** A [search.list] response: the [videoId] of each item (absent when the
    item lacks it), and [pageInfo.totalResults] when present. *)
Record SearchResponse : Type := mkSearchResponse {
  items : list (option string);
  totalResults : option Z
}.

(* ================================================================== *)
(** * config.py *)
(* ================================================================== *)

(** The part of [Config] read from the process environment.
    [os.getenv] gives [None] for an unset variable. *)
Record Config : Type := mkConfig {
  YOUTUBE_API_KEY : option string;
  FIREBASE_PROJECT_ID : option string;
  ANTHROPIC_API_KEY : option string;
  OUTPUT_DIR : string                 (* str(PROJECT_ROOT / 'output') *)
}.

Definition MAX_VIDEOS_PER_SEARCH : Z := 50.
Definition MCP_SERVER_NAME : string := "youtube-intelligence".
Definition MCP_SERVER_VERSION : string := "1.0.0".

(** [bool(x)] and [not x] for an [Optional[str]]. *)
Definition configured (x : option string) : bool :=
  match x with
  | None => false
  | Some s => negb (String.eqb s "")
  end.

(** [Config.validate_config()]. *)
Definition validate_config (cfg : Config) : result bool :=
  let required_vars :=
    [("YOUTUBE_API_KEY", YOUTUBE_API_KEY cfg);
     ("FIREBASE_PROJECT_ID", FIREBASE_PROJECT_ID cfg);
     ("ANTHROPIC_API_KEY", ANTHROPIC_API_KEY cfg)] in
  let missing_vars :=
    map fst (filter (fun kv => negb (configured (snd kv))) required_vars) in
  match missing_vars with
  | [] => Ok true
  | _ => Raise ("Missing required environment variables: "
                ++ join ", " missing_vars)
  end.

(* ================================================================== *)
(** * Third-party calls *)
(* ================================================================== *)

(** Everything the code calls outside the repository and the language
    core.  A field of type [result _] is a call that may raise. *)
Record Externals : Type := mkExternals {
  (* isodate and builtins *)
  parse_duration : string -> result Z;
      (* int(isodate.parse_duration(s).total_seconds()) *)
  int_of_str : string -> result Z;               (* int(s) for a str *)
  fromisoformat : string -> result datetime;     (* datetime.fromisoformat *)
  isoformat : datetime -> string;                (* dt.isoformat() *)
  strftime_ymd : datetime -> string;             (* dt.strftime("%Y-%m-%d") *)
  validate_datetime : string -> result datetime; (* pydantic, str -> datetime *)
  (* Google API client *)
  search_list_execute : SearchParams -> result SearchResponse;
  videos_list_execute : list string -> result (list RawItem);
      (* videos().list(part=..., id=','.join(video_ids)).execute()['items'],
         as a function of video_ids *)
  (* clock *)
  utcnow_isoformat : string;                     (* datetime.utcnow().isoformat() *)
  utcnow_minus_days_isoformat : Z -> result string;
      (* (datetime.utcnow() - timedelta(days=n)).isoformat() *)
  count_published_last_week : list datetime -> result Z;
      (* len(df[df['published'] > now - 7 days]), after the tz fix-ups *)
  (* psutil *)
  boot_time : result Q;
  cpu_percent : result Q;
  memory_percent : result Q;
  disk_usage_percent : result Q;
  process_count : result Z;
  network_connections : result Z;
  (* pandas, TextBlob, number formatting *)
  format_percent2 : Q -> string;                 (* f"{x:.2%}" *)
  format_fixed2 : Q -> string;                   (* f"{x:.2f}" *)
  polarity : string -> Q;                        (* TextBlob(t).sentiment.polarity *)
  std_exceeds_mean : list Z -> bool;             (* df['views'].std() > df['views'].mean() *)
  top_videos_records : list VideoData -> value;
      (* df.nlargest(5, 'views')[['title','views','channel']].to_dict('records') *)
  top_channels_records : list VideoData -> value
      (* the top_channels list built from the groupby aggregate *)
}.

(* ================================================================== *)
(** * services/youtube_service.py *)
(* ================================================================== *)

(** [any(word in content for word in words)]. *)
Definition any_in (content : string) (words : list string) : bool :=
  existsb (fun word => contains word content) words.

(** [YouTubeService._categorize_video]. *)
Definition _categorize_video (title description : string) : VideoCategory :=
  let content := lower (title ++ " " ++ description) in
  if any_in content ["tutorial"; "learn"; "education"; "course"] then EDUCATION
  else if any_in content ["tech"; "programming"; "software"; "ai"] then TECHNOLOGY
  else if any_in content ["game"; "gaming"; "play"] then GAMING
  else if any_in content ["music"; "song"; "album"] then MUSIC
  else if any_in content ["news"; "breaking"; "report"] then NEWS
  else if any_in content ["sport"; "football"; "basketball"] then SPORTS
  else OTHER.

Section Service.

Variable ext : Externals.

(** [int(statistics.get(key, 0))]: the provider sends counts as strings;
    the default is the integer 0. *)
Definition int_stat (field : option string) : result Z :=
  match field with
  | Some s => int_of_str ext s
  | None => Ok 0
  end.

(** The [try] block of [_parse_video_item]. *)
Definition _parse_video_item_body (item : RawItem) : result VideoData :=
  snip <- subscript "snippet" (snippet item) ;;
  let stat := get_default (statistics item) (mkRawStatistics None None None) in
  let content_details :=
    get_default (contentDetails item) (mkRawContentDetails None) in
  (* Parse duration *)
  let duration_str := get_default (raw_duration content_details) "PT0S" in
  duration_seconds <- parse_duration ext duration_str ;;
  (* Create video stats *)
  views <- int_stat (viewCount stat) ;;
  likes <- int_stat (likeCount stat) ;;
  comments <- int_stat (commentCount stat) ;;
  let stats := mkVideoStats views likes comments duration_seconds in
  (* Determine category *)
  let category :=
    _categorize_video (get_default (raw_title snip) "")
                      (get_default (raw_description snip) "") in
  (* Parse published date *)
  published <- subscript "publishedAt" (raw_publishedAt snip) ;;
  published_at <- fromisoformat ext (replace_char "Z" "+00:00" published) ;;
  (* Create video data *)
  id <- subscript "id" (raw_id item) ;;
  title <- subscript "title" (raw_title snip) ;;
  channel_id <- subscript "channelId" (raw_channelId snip) ;;
  channel_title <- subscript "channelTitle" (raw_channelTitle snip) ;;
  Ok {| video_id := id;
        title := title;
        description := get_default (raw_description snip) "";
        channel_id := channel_id;
        channel_title := channel_title;
        published_at := published_at;
        duration := duration_str;
        category := category;
        stats := stats;
        tags := get_default (raw_tags snip) [];
        thumbnail_url :=
          url (get_default
                 (high (get_default (raw_thumbnails snip) (mkRawThumbnails None)))
                 (mkRawThumbnail None)) |}.

(** [YouTubeService._parse_video_item]: any exception gives [None]. *)
Definition _parse_video_item (item : RawItem) : option VideoData :=
  try_except (v <- _parse_video_item_body item ;; Ok (Some v)) (fun _ => None).

(** The loop of [_fetch_video_batch]: a record is appended when its parse
    is not [None]. *)
Fixpoint parse_items (items : list RawItem) : list VideoData :=
  match items with
  | [] => []
  | item :: rest =>
      match _parse_video_item item with
      | Some video => video :: parse_items rest
      | None => parse_items rest
      end
  end.

(** [YouTubeService._fetch_video_batch]. *)
Definition _fetch_video_batch (video_ids : list string) : list VideoData :=
  try_except
    (items <- videos_list_execute ext video_ids ;;
     Ok (parse_items items))
    (fun _ => []).

(** The slices [video_ids[i:i+50]] for [i] in [range(0, len(video_ids), 50)];
    [fuel] bounds the number of slices. *)
Fixpoint batches (fuel : nat) (video_ids : list string) : list (list string) :=
  match fuel with
  | O => []
  | S fuel' =>
      match video_ids with
      | [] => []
      | _ => firstn 50 video_ids :: batches fuel' (skipn 50 video_ids)
      end
  end.

(** [YouTubeService._get_video_details]. *)
Definition _get_video_details (video_ids : list string) : list VideoData :=
  match video_ids with
  | [] => []
  | _ => flat_map _fetch_video_batch (batches (List.length video_ids) video_ids)
  end.

(** The dictionary [search_params] of [search_videos]. *)
Definition search_params_of (sq : SearchQuery) : SearchParams :=
  {| part := "snippet";
     q := query sq;
     type_ := "video";
     maxResults := Z.min (max_results sq) 50;   (* API limit *)
     regionCode := region_code sq;
     relevanceLanguage := language sq;
     order_ := order sq;
     publishedAfter := option_map (isoformat ext) (published_after sq);
     publishedBefore := option_map (isoformat ext) (published_before sq) |}.

(** [[item['id']['videoId'] for item in search_response['items']]]. *)
Fixpoint video_ids_of (items : list (option string)) : result (list string) :=
  match items with
  | [] => Ok []
  | item :: rest =>
      id <- subscript "videoId" item ;;
      ids <- video_ids_of rest ;;
      Ok (id :: ids)
  end.

(** [YouTubeService.search_videos]; both [except] clauses re-raise. *)
Definition search_videos (sq : SearchQuery) : result SearchResult :=
  search_response <- search_list_execute ext (search_params_of sq) ;;
  video_ids <- video_ids_of (items search_response) ;;
  let videos := _get_video_details video_ids in
  Ok {| sr_query := sq;
        videos := videos;
        total_results := get_default (totalResults search_response) 0 |}.

End Service.

(* ================================================================== *)
(** * Tool handlers *)
(* ================================================================== *)

(** The [arguments] mapping of a tool call, restricted to the properties
    the three input schemas declare, each at its declared JSON type.  A
    field is [None] when the key is absent, which is what the handlers'
    [arguments.get(key, default)] distinguishes. *)
Record Arguments : Type := mkArguments {
  arg_query : option string;
  arg_max_results : option Z;
  arg_order : option string;
  arg_region_code : option string;
  arg_published_after_days : option Z;
  arg_topic : option string;
  arg_timeframe_days : option Z;
  arg_sample_size : option Z;
  arg_include_detailed : option bool
}.

Definition no_arguments : Arguments :=
  mkArguments None None None None None None None None None.

(** [int(x)] for a float: truncation toward zero. *)
Definition Qtrunc (x : Q) : Z := Z.quot (Qnum x) (Zpos (Qden x)).

(** [a > b] on floats. *)
Definition Qgtb (a b : Q) : bool := negb (Qle_bool a b).

(** The mean of a column; 0 stands in for the NaN of an empty column,
    which no caller produces. *)
Definition Qmean (l : list Q) : Q :=
  match l with
  | [] => 0%Q
  | _ => (Qsum l / inject_Z (Z.of_nat (List.length l)))%Q
  end.

Definition Zsum (l : list Z) : Z := fold_right Z.add 0 l.

(** [df['channel'].nunique()]: the number of distinct channel titles. *)
Definition nunique (l : list string) : Z :=
  Z.of_nat (List.length (nodup string_dec l)).

(** Line 150 of tools/market_analysis_tool.py. *)
Definition competition_level_of (unique_channels : Z) : string :=
  if unique_channels >? 30 then "High"
  else if unique_channels >? 15 then "Medium"
  else "Low".

Section Handlers.

Variable ext : Externals.
Variable cfg : Config.

(** [_format_youtube_timestamp], the same method in both search tools. *)
Definition _format_youtube_timestamp (days_ago : Z) : result string :=
  past_date <- utcnow_minus_days_isoformat ext days_ago ;;
  Ok (past_date ++ "Z").

(** ** tools/video_search_tool.py *)

(** The [video_data] dictionary of one video.  [VideoData] has no
    attribute [description_snippet], so that entry is [''] *)
Definition video_data_of (video : VideoData) : value :=
  VDict
    [("title", VStr (title video));
     ("channel", VStr (channel_title video));
     ("views", VInt (view_count (stats video)));
     ("likes", VInt (like_count (stats video)));
     ("comments", VInt (comment_count (stats video)));
     ("engagement_rate",
        VStr (format_percent2 ext (engagement_rate (stats video))));
     ("published", VStr (strftime_ymd ext (published_at video)));
     ("duration", VStr (duration video));
     ("category", VStr (category_value (category video)));
     ("url", VStr ("https://youtube.com/watch?v=" ++ video_id video));
     ("description_snippet", VStr "")].

Definition value_of_option_int (x : option Z) : value :=
  match x with
  | Some n => VInt n
  | None => VNone
  end.

(** [VideoSearchTool.call]. *)
Definition VideoSearchTool_call (arguments : Arguments) : dict :=
  try_except
    (let query_text := get_default (arg_query arguments) "" in
     let max_results := Z.min (get_default (arg_max_results arguments) 10) 50 in
     let order := get_default (arg_order arguments) "relevance" in
     let region_code := get_default (arg_region_code arguments) "US" in
     let published_after_days := arg_published_after_days arguments in
     published_after <-
       match published_after_days with
       | Some days =>
           stamp <- _format_youtube_timestamp days ;;
           instant <- validate_datetime ext stamp ;;
           Ok (Some instant)
       | None => Ok None
       end ;;
     let search_query :=
       mkSearchQuery query_text max_results region_code "en"
                     published_after None order in
     results <- search_videos ext search_query ;;
     Ok [("success", VBool true);
         ("query", VStr query_text);
         ("total_results", VInt (total_results results));
         ("videos_found", VInt (Z.of_nat (List.length (videos results))));
         ("average_engagement",
            VStr (format_percent2 ext (average_engagement results)));
         ("search_parameters",
            VDict [("order", VStr order);
                   ("region_code", VStr region_code);
                   ("max_results", VInt max_results);
                   ("published_after_days",
                      value_of_option_int published_after_days)]);
         ("videos", VList (map video_data_of (videos results)))])
    (fun e =>
       [("success", VBool false);
        ("error", VStr e);
        ("message", VStr "Failed to search videos")]).

(** ** tools/market_analysis_tool.py *)

(** [MarketAnalysisTool._generate_market_insights]. *)
Definition _generate_market_insights
    (df : list VideoData) (topic competition_level : string) : list string :=
  (* View distribution insight *)
  let insights1 :=
    if std_exceeds_mean ext (map (fun v => view_count (stats v)) df)
    then ["High variance in video performance - opportunity for viral content"]
    else [] in
  (* Engagement insight *)
  let high_engagement :=
    filter (fun v => Qgtb (engagement_rate (stats v)) (5 # 100)) df in
  let insights2 :=
    match high_engagement with
    | [] => []
    | _ =>
        let avg_duration :=
          Qmean (map (fun v => inject_Z (duration_seconds (stats v)))
                     high_engagement) in
        ["High-engagement videos average "
           ++ str_int (Qtrunc (avg_duration / 60)) ++ " minutes duration"]
    end in
  (* Competition insight *)
  let insights3 :=
    if String.eqb competition_level "Low"
    then ["Low competition - good opportunity to establish authority"]
    else if String.eqb competition_level "High"
    then ["High competition - focus on unique angle or underserved subtopics"]
    else [] in
  (* Upload timing insight *)
  let insights4 :=
    try_except
      (recent_videos <- count_published_last_week ext (map published_at df) ;;
       Ok (if Qgtb (inject_Z recent_videos)
                   (inject_Z (Z.of_nat (List.length df)) * (3 # 10))
           then ["High recent activity - trending topic with immediate opportunity"]
           else []))
      (fun _ => []) in
  (insights1 ++ insights2 ++ insights3 ++ insights4)%list.

(** [MarketAnalysisTool._analyze_market_data]. *)
Definition _analyze_market_data (videos : list VideoData) (topic : string) : dict :=
  let views := map (fun v => view_count (stats v)) videos in
  (* Calculate market metrics *)
  let total_views := Zsum views in
  let avg_views := Qmean (map inject_Z views) in
  let avg_engagement := Qmean (map (fun v => engagement_rate (stats v)) videos) in
  (* Sentiment analysis on titles *)
  let sentiments := map (fun v => polarity ext (title v)) videos in
  let avg_sentiment := Qmean sentiments in
  (* Competition analysis *)
  let unique_channels := nunique (map channel_title videos) in
  let competition_level := competition_level_of unique_channels in
  [("market_overview",
      VDict [("total_views", VInt total_views);
             ("average_views", VInt (Qtrunc avg_views));
             ("average_engagement_rate", VStr (format_percent2 ext avg_engagement));
             ("unique_creators", VInt unique_channels);
             ("competition_level", VStr competition_level);
             ("market_sentiment", VStr (format_fixed2 ext avg_sentiment))]);
   ("top_performing_videos", top_videos_records ext videos);
   ("top_channels", top_channels_records ext videos);
   ("insights",
      VList (map VStr (_generate_market_insights videos topic competition_level)))].

(** The [SearchQuery] that [MarketAnalysisTool.call] builds. *)
Definition market_search_query
    (topic : string) (sample_size : Z) (published_after : datetime) : SearchQuery :=
  mkSearchQuery topic sample_size "US" "en" (Some published_after) None "viewCount".

(** [MarketAnalysisTool.call]. *)
Definition MarketAnalysisTool_call (arguments : Arguments) : dict :=
  try_except
    (let topic := get_default (arg_topic arguments) "" in
     let timeframe_days := get_default (arg_timeframe_days arguments) 30 in
     let sample_size := Z.min (get_default (arg_sample_size arguments) 50) 100 in
     (* Search for recent videos with proper timestamp formatting *)
     stamp <- _format_youtube_timestamp timeframe_days ;;
     published_after <- validate_datetime ext stamp ;;
     let search_query := market_search_query topic sample_size published_after in
     results <- search_videos ext search_query ;;
     match videos results with
     | [] =>
         Ok [("success", VBool false);
             ("message", VStr ("No videos found for topic: " ++ topic))]
     | _ =>
         (* Analyze market metrics *)
         let analysis := _analyze_market_data (videos results) topic in
         Ok [("success", VBool true);
             ("topic", VStr topic);
             ("timeframe_days", VInt timeframe_days);
             ("videos_analyzed", VInt (Z.of_nat (List.length (videos results))));
             ("analysis", VDict analysis)]
     end)
    (fun e =>
       [("success", VBool false);
        ("error", VStr e);
        ("message", VStr "Failed to analyze market")]).

(** ** tools/system_status_tool.py *)

(** [SystemStatusTool._get_uptime]. *)
Definition _get_uptime : Q := try_except (boot_time ext) (fun _ => 0%Q).

(** [SystemStatusTool._get_system_metrics]. *)
Definition _get_system_metrics : dict :=
  try_except
    (cpu <- cpu_percent ext ;;
     memory <- memory_percent ext ;;
     disk <- disk_usage_percent ext ;;
     processes <- process_count ext ;;
     connections <- network_connections ext ;;
     Ok [("cpu_percent", VFloat cpu);
         ("memory_percent", VFloat memory);
         ("disk_usage_percent", VFloat disk);
         ("process_count", VInt processes);
         ("network_connections", VInt connections)])
    (fun _ => [("error", VStr "Unable to retrieve system metrics")]).

Definition configured_label (x : option string) : string :=
  if configured x then "configured" else "not_configured".

(** [SystemStatusTool._check_api_status]. *)
Definition _check_api_status : dict :=
  [("youtube_api", VStr (configured_label (YOUTUBE_API_KEY cfg)));
   ("firebase", VStr (configured_label (FIREBASE_PROJECT_ID cfg)));
   ("claude_api", VStr (configured_label (ANTHROPIC_API_KEY cfg)))].

(** The ["configuration"] entry of the status. *)
Definition configuration_block : dict :=
  [("youtube_api_configured", VBool (configured (YOUTUBE_API_KEY cfg)));
   ("firebase_configured", VBool (configured (FIREBASE_PROJECT_ID cfg)));
   ("claude_api_configured", VBool (configured (ANTHROPIC_API_KEY cfg)));
   ("output_directory", VStr (OUTPUT_DIR cfg));
   ("max_videos_per_search", VInt MAX_VIDEOS_PER_SEARCH)].

(** [SystemStatusTool.call]. *)
Definition SystemStatusTool_call (arguments : Arguments) : dict :=
  try_except
    (let include_detailed := get_default (arg_include_detailed arguments) false in
     (* Basic system info *)
     let status :=
       [("server_name", VStr MCP_SERVER_NAME);
        ("version", VStr MCP_SERVER_VERSION);
        ("timestamp", VStr (utcnow_isoformat ext ++ "Z"));
        ("status", VStr "healthy");
        ("uptime_seconds", VFloat _get_uptime);
        ("configuration", VDict configuration_block)] in
     (* Add detailed metrics if requested *)
     let status :=
       if include_detailed
       then (status ++ [("system_metrics", VDict _get_system_metrics);
                        ("api_status", VDict _check_api_status)])%list
       else status in
     Ok [("success", VBool true);
         ("status", VDict status)])
    (fun e =>
       [("success", VBool false);
        ("error", VStr e);
        ("message", VStr "Failed to get system status")]).

End Handlers.

(* ================================================================== *)
(** * The tool instances and mcp_server.py *)
(* ================================================================== *)

(** What [mcp_server.py] uses of a tool instance.  [call] may raise: the
    server does not rely on a handler catching its own exceptions. *)
Record ToolInstance : Type := mkToolInstance {
  name : string;
  description_ : string;
  inputSchema : value;
  call : Arguments -> result dict
}.

(** [mcp.types.Tool]. *)
Record Tool : Type := mkTool {
  tool_name : string;
  tool_description : string;
  tool_inputSchema : value
}.

(** [mcp.types.TextContent]. *)
Record TextContent : Type := mkTextContent {
  type_text : string;
  text : string
}.

Definition schema_property (type_name descr : string) (default : option value)
  : value :=
  VDict ([("type", VStr type_name); ("description", VStr descr)]
         ++ match default with
            | Some d => [("default", d)]
            | None => []
            end)%list.

Definition object_schema (properties : dict) (required : list string) : value :=
  VDict ([("type", VStr "object"); ("properties", VDict properties)]
         ++ match required with
            | [] => []
            | _ => [("required", VList (map VStr required))]
            end)%list.

Definition VideoSearchTool_schema : value :=
  object_schema
    [("query", schema_property "string" "Search query for YouTube videos" None);
     ("max_results",
        schema_property "integer"
          "Maximum number of results to return (default: 10)" (Some (VInt 10)));
     ("order",
        schema_property "string"
          "Sort order: relevance, date, rating, viewCount"
          (Some (VStr "relevance")));
     ("region_code",
        schema_property "string"
          "Region code for localized results (default: US)" (Some (VStr "US")));
     ("published_after_days",
        schema_property "integer"
          "Filter videos published within last N days (optional)" (Some VNone))]
    ["query"].

Definition MarketAnalysisTool_schema : value :=
  object_schema
    [("topic", schema_property "string" "Topic or niche to analyze" None);
     ("timeframe_days",
        schema_property "integer"
          "Analyze videos from last N days (default: 30)" (Some (VInt 30)));
     ("sample_size",
        schema_property "integer"
          "Number of videos to analyze (default: 50)" (Some (VInt 50)))]
    ["topic"].

Definition SystemStatusTool_schema : value :=
  object_schema
    [("include_detailed",
        schema_property "boolean" "Include detailed system metrics"
          (Some (VBool false)))]
    [].

(** The in-source display templates of [mcp_server.py] (lines 133-246)
    and [str] of values other than strings, integers, booleans and [None].
    They enter [call_tool] as parameters (two of them are embedded further
    down); a template may raise (it subscripts the result). *)
Record Display : Type := mkDisplay {
  format_video_search_response : dict -> result string;
  format_market_analysis_response : dict -> result string;
  format_system_status_response : dict -> result string;
  str_other : value -> string
}.

Section Server.

Variable ext : Externals.
Variable cfg : Config.
Variable display : Display.

Definition VideoSearchTool : ToolInstance :=
  mkToolInstance "search_videos"
    "Search YouTube videos with detailed analysis and insights"
    VideoSearchTool_schema
    (fun arguments => Ok (VideoSearchTool_call ext arguments)).

Definition MarketAnalysisTool : ToolInstance :=
  mkToolInstance "analyze_market"
    "Analyze YouTube market trends and competition for specific topics"
    MarketAnalysisTool_schema
    (fun arguments => Ok (MarketAnalysisTool_call ext arguments)).

Definition SystemStatusTool : ToolInstance :=
  mkToolInstance "system_status"
    "Get YouTube Intelligence MCP Server system status and health metrics"
    SystemStatusTool_schema
    (fun arguments => Ok (SystemStatusTool_call ext cfg arguments)).

(** The module-level dictionary [youtube_tools], in insertion order. *)
Definition youtube_tools : list (string * ToolInstance) :=
  [("search_videos", VideoSearchTool);
   ("analyze_market", MarketAnalysisTool);
   ("system_status", SystemStatusTool)].

(** [youtube_tools[name]] as an option; [None] is [name not in youtube_tools]. *)
Fixpoint find_tool (tools : list (string * ToolInstance)) (tool_name : string)
  : option ToolInstance :=
  match tools with
  | [] => None
  | (k, t) :: rest => if String.eqb k tool_name then Some t else find_tool rest tool_name
  end.

(** [str(x)] of a value met in an f-string. *)
Definition str_value (v : value) : string :=
  match v with
  | VStr s => s
  | VNone => "None"
  | VBool true => "True"
  | VBool false => "False"
  | VInt n => str_int n
  | other => str_other display other
  end.

(** [list_tools], for the module state [_server_initialized] and a
    registry. *)
Definition list_tools_in (tools : list (string * ToolInstance))
    (_server_initialized : bool) : list Tool :=
  try_except
    (if negb _server_initialized then Ok []
     else
       Ok (map (fun entry =>
                  let tool_instance := snd entry in
                  mkTool (name tool_instance) (description_ tool_instance)
                         (inputSchema tool_instance))
               tools))
    (fun _ => []).

Definition list_tools : bool -> list Tool := list_tools_in youtube_tools.

(** [format_tool_response]. *)
Definition format_tool_response (tool_name : string) (result_ : dict) : string :=
  try_except
    (if String.eqb tool_name "search_videos"
     then format_video_search_response display result_
     else if String.eqb tool_name "analyze_market"
     then format_market_analysis_response display result_
     else if String.eqb tool_name "system_status"
     then format_system_status_response display result_
     else Ok ("Results from " ++ tool_name ++ ":" ++ String "010" ""
              ++ str_other display (VDict result_)))
    (fun _ =>
       "Tool executed successfully but response formatting failed: "
       ++ str_other display (VDict result_)).

Definition text_content (s : string) : list TextContent := [mkTextContent "text" s].

(** The [try] block of [call_tool]. *)
Definition call_tool_body (tools : list (string * ToolInstance))
    (_server_initialized : bool) (tool_name : string) (arguments : Arguments)
  : result (list TextContent) :=
  (* Check if server is initialized *)
  if negb _server_initialized then
    let error_msg :=
      "Server not yet initialized. Please wait for initialization to complete." in
    Ok (text_content ("Error: " ++ error_msg))
  else
    (* Find and execute tool *)
    match find_tool tools tool_name with
    | None =>
        let error_msg :=
          "Tool '" ++ tool_name ++ "' not found. Available tools: "
          ++ str_list (map fst tools) in
        Ok (text_content ("Error: " ++ error_msg))
    | Some tool_instance =>
        (* Execute tool *)
        result_ <- call tool_instance arguments ;;
        (* Format response *)
        let response_text :=
          if truthy (dict_get result_ "success" (VBool false))
          then format_tool_response tool_name result_
          else "Tool execution failed: "
               ++ str_value (dict_get result_ "message" (VStr "Unknown error")) in
        Ok (text_content response_text)
    end.

(** [call_tool], for the module state and a registry. *)
Definition call_tool_in (tools : list (string * ToolInstance))
    (_server_initialized : bool) (tool_name : string) (arguments : Arguments)
  : list TextContent :=
  try_except
    (call_tool_body tools _server_initialized tool_name arguments)
    (fun e => text_content ("Error executing tool '" ++ tool_name ++ "': " ++ e)).

Definition call_tool : bool -> string -> Arguments -> list TextContent :=
  call_tool_in youtube_tools.

(** [initialize_server]: the new value of [_server_initialized], or the
    re-raised exception, in which case the flag keeps its value. *)
Definition initialize_server (_server_initialized : bool) : result bool :=
  _ <- validate_config cfg ;;
  Ok true.

End Server.

(* ================================================================== *)
(** * A concrete environment *)
(* ================================================================== *)

(** Executable stand-ins for the third-party calls, used to run the model
    on concrete inputs.  The parsers accept a subset of what the libraries
    accept and reject whatever lies outside it. *)
Module Fixture.

Definition is_digit (c : ascii) : bool :=
  let n := nat_of_ascii c in ((48 <=? n)%nat && (n <=? 57)%nat)%bool.

Definition digit_value (c : ascii) : Z := Z.of_nat (nat_of_ascii c - 48).

(** The longest prefix of decimal digits, as a number, and the rest. *)
Fixpoint read_digits (s : string) (acc : option Z) : option Z * string :=
  match s with
  | String c s' =>
      if is_digit c
      then read_digits s' (Some (10 * get_default acc 0 + digit_value c))
      else (acc, s)
  | EmptyString => (acc, s)
  end.

(** [int(s)] on an optional sign followed by decimal digits. *)
Definition decimal_int (s : string) : result Z :=
  let invalid := Raise ("invalid literal for int() with base 10: " ++ repr_str s) in
  let digits sign body :=
    match read_digits body None with
    | (Some n, EmptyString) => Ok (sign * n)
    | _ => invalid
    end in
  match s with
  | String "-" body => digits (-1) body
  | String "+" body => digits 1 body
  | _ => digits 1 s
  end.

(** One run of [<digits><designator>] groups, each optional, in the order
    of [designators]; the seconds they add up to, and the rest. *)
Fixpoint read_groups (designators : list (ascii * Z)) (s : string) : Z * string :=
  match designators with
  | [] => (0, s)
  | (designator, seconds) :: rest =>
      match read_digits s None with
      | (Some n, String c s') =>
          if Ascii.eqb c designator
          then let (total, s'') := read_groups rest s' in (n * seconds + total, s'')
          else read_groups rest s
      | _ => read_groups rest s
      end
  end.

(** [int(isodate.parse_duration(s).total_seconds())] on
    [P[nY][nM][nW][nD][T[nH][nM][nS]]] with integer fields; years and months
    do not count toward [total_seconds]. *)
Definition iso8601_seconds (s : string) : result Z :=
  let invalid := Raise ("Unable to parse duration string " ++ s) in
  match s with
  | String "P" (String c body as rest) =>
      let (date_seconds, after_date) :=
        read_groups [("Y"%char, 0); ("M"%char, 0);
                     ("W"%char, 604800); ("D"%char, 86400)] rest in
      match after_date with
      | EmptyString => Ok date_seconds
      | String "T" time =>
          let (time_seconds, after_time) :=
            read_groups [("H"%char, 3600); ("M"%char, 60); ("S"%char, 1)] time in
          match after_time with
          | EmptyString => Ok (date_seconds + time_seconds)
          | _ => invalid
          end
      | _ => invalid
      end
  | _ => invalid
  end.

(** Exactly [n] decimal digits. *)
Fixpoint take_digits (n : nat) (s : string) (acc : Z) : option (Z * string) :=
  match n with
  | O => Some (acc, s)
  | S n' =>
      match s with
      | String c s' =>
          if is_digit c then take_digits n' s' (10 * acc + digit_value c) else None
      | EmptyString => None
      end
  end.

Definition expect (c : ascii) (s : string) : option string :=
  match s with
  | String c' s' => if Ascii.eqb c c' then Some s' else None
  | EmptyString => None
  end.

Definition obind {A B : Type} (m : option A) (k : A -> option B) : option B :=
  match m with
  | Some a => k a
  | None => None
  end.

(** [datetime.fromisoformat] on [YYYY-MM-DDTHH:MM:SS] with an optional
    [+HH:MM] or [-HH:MM] offset. *)
Definition iso_datetime (s : string) : result datetime :=
  let parsed :=
    obind (take_digits 4 s 0) (fun '(y, s) =>
    obind (expect "-" s) (fun s =>
    obind (take_digits 2 s 0) (fun '(mo, s) =>
    obind (expect "-" s) (fun s =>
    obind (take_digits 2 s 0) (fun '(d, s) =>
    obind (expect "T" s) (fun s =>
    obind (take_digits 2 s 0) (fun '(h, s) =>
    obind (expect ":" s) (fun s =>
    obind (take_digits 2 s 0) (fun '(mi, s) =>
    obind (expect ":" s) (fun s =>
    obind (take_digits 2 s 0) (fun '(se, s) =>
    let offset sign s :=
      obind (take_digits 2 s 0) (fun '(oh, s) =>
      obind (expect ":" s) (fun s =>
      obind (take_digits 2 s 0) (fun '(om, s) =>
      match s with
      | EmptyString => Some (Some (sign * (60 * oh + om)))
      | _ => None
      end))) in
    obind
      match s with
      | EmptyString => Some None
      | String "+" s' => offset 1 s'
      | String "-" s' => offset (-1) s'
      | _ => None
      end (fun off =>
    if ((1 <=? mo) && (mo <=? 12) && (1 <=? d) && (d <=? 31)
        && (h <? 24) && (mi <? 60) && (se <? 60))%bool
    then Some (mkDatetime y mo d h mi se 0 off)
    else None)))))))))))) in
  match parsed with
  | Some dt => Ok dt
  | None => Raise ("Invalid iso_string string: " ++ repr_str s)
  end.

(** Days since 1970-01-01 of a proleptic Gregorian date, and back. *)
Definition days_from_civil (y m d : Z) : Z :=
  let y := if m <=? 2 then y - 1 else y in
  let era := y / 400 in
  let yoe := y - era * 400 in
  let doy := (153 * (if m >? 2 then m - 3 else m + 9) + 2) / 5 + d - 1 in
  let doe := yoe * 365 + yoe / 4 - yoe / 100 + doy in
  era * 146097 + doe - 719468.

Definition civil_from_days (z : Z) : Z * Z * Z :=
  let z := z + 719468 in
  let era := z / 146097 in
  let doe := z - era * 146097 in
  let yoe := (doe - doe / 1460 + doe / 36524 - doe / 146096) / 365 in
  let doy := doe - (365 * yoe + yoe / 4 - yoe / 100) in
  let mp := (5 * doy + 2) / 153 in
  let d := doy - (153 * mp + 2) / 5 + 1 in
  let m := if mp <? 10 then mp + 3 else mp - 9 in
  ((if m <=? 2 then yoe + era * 400 + 1 else yoe + era * 400), m, d).

(** A non-negative number on at least [width] digits. *)
Fixpoint zero_pad (width : nat) (s : string) : string :=
  match width with
  | O => s
  | S w => if (String.length s <? width)%nat then zero_pad w ("0" ++ s) else s
  end.

Definition digits (width : nat) (n : Z) : string := zero_pad width (str_int n).

Definition ymd_string (dt : datetime) : string :=
  digits 4 (year dt) ++ "-" ++ digits 2 (month dt) ++ "-" ++ digits 2 (day dt).

(** [dt.isoformat()] for a whole number of seconds. *)
Definition iso_string (dt : datetime) : string :=
  ymd_string dt ++ "T" ++ digits 2 (hour dt) ++ ":" ++ digits 2 (minute dt)
  ++ ":" ++ digits 2 (second dt)
  ++ match utcoffset dt with
     | None => ""
     | Some off =>
         (if off <? 0 then "-" else "+")
         ++ digits 2 (Z.abs off / 60) ++ ":" ++ digits 2 (Z.abs off mod 60)
     end.

(** The instant [datetime.utcnow()] returns in this environment. *)
Definition now : datetime := mkDatetime 2024 6 1 12 0 0 0 None.

Definition minus_days (dt : datetime) (n : Z) : datetime :=
  let '(y, m, d) :=
    civil_from_days (days_from_civil (year dt) (month dt) (day dt) - n) in
  mkDatetime y m d (hour dt) (minute dt) (second dt) (microsecond dt) (utcoffset dt).

(** [timedelta(days=n)] accepts at most 999999999 days either way. *)
Definition days_ago_string (n : Z) : result string :=
  if Z.abs n <=? 999999999
  then
    let past := minus_days now n in
    if ((1 <=? year past) && (year past <=? 9999))%bool
    then Ok (iso_string past)
    else Raise "date value out of range"
  else Raise ("days=" ++ str_int n ++ "; must have magnitude <= 999999999").

Definition aware_datetime (s : string) : result datetime :=
  iso_datetime (replace_char "Z" "+00:00" s).

Definition recent_count (published : list datetime) : result Z :=
  let cutoff := days_from_civil (year now) (month now) (day now) - 7 in
  Ok (Z.of_nat
        (List.length
           (filter (fun dt => days_from_civil (year dt) (month dt) (day dt) >? cutoff)
                   published))).

(** [f"{x:.2%}"] and [f"{x:.2f}"], rounding half up. *)
Definition fixed2 (x : Q) : string :=
  let hundredths := Qfloor (x * 100 + (1 # 2)) in
  (if hundredths <? 0 then "-" else "")
  ++ str_int (Z.abs hundredths / 100) ++ "." ++ digits 2 (Z.abs hundredths mod 100).

Definition percent2 (x : Q) : string := fixed2 (x * 100) ++ "%".

(** ** The provider *)

Definition raw_video (id ttl channel dur views likes comments : string) : RawItem :=
  {| raw_id := Some id;
     snippet :=
       Some {| raw_title := Some ttl;
               raw_description := Some "";
               raw_channelId := Some ("UC-" ++ channel);
               raw_channelTitle := Some channel;
               raw_publishedAt := Some "2024-05-20T08:30:00Z";
               raw_tags := None;
               raw_thumbnails := None |};
     statistics :=
       Some {| viewCount := Some views;
               likeCount := Some likes;
               commentCount := Some comments |};
     contentDetails := Some {| raw_duration := Some dur |} |}.

Definition item_v1 : RawItem :=
  raw_video "v1" "Python Tutorial for Beginners" "Code School" "PT15M30S"
            "1000" "50" "10".

(** A record whose duration string is not an ISO 8601 duration. *)
Definition item_v2 : RawItem :=
  raw_video "v2" "Advanced Python" "Py Weekly" "abc" "500" "5" "1".

Definition item_v3 : RawItem :=
  raw_video "v3" "Python Game Tutorial" "Code School" "PT1H" "0" "0" "0".

Definition catalog : list (string * RawItem) :=
  [("v1", item_v1); ("v2", item_v2); ("v3", item_v3)].

Fixpoint find_item (id : string) (l : list (string * RawItem)) : option RawItem :=
  match l with
  | [] => None
  | (k, item) :: rest => if String.eqb k id then Some item else find_item id rest
  end.

(** [videos.list]: the catalogued items among the requested ids. *)
Definition fetch_one (id : string) : list RawItem :=
  match find_item id catalog with
  | Some item => [item]
  | None => []
  end.

Definition fetch_catalog (ids : list string) : result (list RawItem) :=
  Ok (flat_map fetch_one ids).

(** [search.list]: the whole catalogue for a query that mentions python,
    nothing otherwise, cut at [maxResults]. *)
Definition search_catalog (p : SearchParams) : result SearchResponse :=
  if contains "python" (lower (q p))
  then Ok {| items := firstn (Z.to_nat (maxResults p))
                             (map (fun kv => Some (fst kv)) catalog);
             totalResults := Some 3 |}
  else Ok {| items := []; totalResults := Some 0 |}.

(** The pandas and TextBlob summaries are constant in this environment. *)
Definition externals : Externals :=
  {| parse_duration := iso8601_seconds;
     int_of_str := decimal_int;
     fromisoformat := iso_datetime;
     isoformat := iso_string;
     strftime_ymd := ymd_string;
     validate_datetime := aware_datetime;
     search_list_execute := search_catalog;
     videos_list_execute := fetch_catalog;
     utcnow_isoformat := iso_string now;
     utcnow_minus_days_isoformat := days_ago_string;
     count_published_last_week := recent_count;
     boot_time := Ok (inject_Z 1717000000);
     cpu_percent := Ok (25 # 2);
     memory_percent := Ok (403 # 10);
     disk_usage_percent := Ok (61 # 1);
     process_count := Ok 212;
     network_connections := Raise "(pid=1)";
     format_percent2 := percent2;
     format_fixed2 := fixed2;
     polarity := fun _ => 0%Q;
     std_exceeds_mean := fun _ => false;
     top_videos_records := fun _ => VList [];
     top_channels_records := fun _ => VList [] |}.

Definition config : Config :=
  {| YOUTUBE_API_KEY := Some "AIza-fixture-key";
     FIREBASE_PROJECT_ID := Some "fixture-project";
     ANTHROPIC_API_KEY := None;
     OUTPUT_DIR := "/srv/app/output" |}.

Definition display : Display :=
  {| format_video_search_response := fun _ => Ok "**YouTube Video Search Results**";
     format_market_analysis_response := fun _ => Ok "**Market Analysis Results**";
     format_system_status_response := fun _ => Ok "**System Status**";
     str_other := fun _ => "{...}" |}.

End Fixture.

(* ================================================================== *)
(** * Specification-side definitions *)
(* ================================================================== *)

(** Category inference as the specification words it: an ordered list of
    keyword rules, the first matching rule wins, [OTHER] when none does. *)
Definition priority_rules : list (VideoCategory * list string) :=
  [(EDUCATION, ["tutorial"; "learn"; "education"; "course"]);
   (TECHNOLOGY, ["tech"; "programming"; "software"; "ai"]);
   (GAMING, ["game"; "gaming"; "play"]);
   (MUSIC, ["music"; "song"; "album"]);
   (NEWS, ["news"; "breaking"; "report"]);
   (SPORTS, ["sport"; "football"; "basketball"])].

Fixpoint first_match (rules : list (VideoCategory * list string))
    (content : string) : VideoCategory :=
  match rules with
  | [] => OTHER
  | (cat, words) :: rest =>
      if any_in content words then cat else first_match rest content
  end.

(** The text the keyword tests run on. *)
Definition content_of (title description : string) : string :=
  lower (title ++ " " ++ description).

(** [n] videos, the [i]-th on channel number [i mod channels]. *)
Definition sample_videos (n channels : nat) : list VideoData :=
  map (fun i =>
         mkVideoData ("v" ++ str_int (Z.of_nat i)) "Sample" ""
           "UC" ("channel " ++ str_int (Z.of_nat (i mod channels)))
           Fixture.now "PT1M" OTHER (mkVideoStats 10 1 0 60) [] None)
      (seq 0 n).

(** The duration string [_parse_video_item] hands to the parser. *)
Definition duration_str_of (item : RawItem) : string :=
  get_default
    (raw_duration (get_default (contentDetails item) (mkRawContentDetails None)))
    "PT0S".

(** [analysis['market_overview'][key]]. *)
Definition market_overview_get (analysis : dict) (key : string) : option value :=
  match lookup "market_overview" analysis with
  | Some (VDict overview) => lookup key overview
  | _ => None
  end.

(** [result['status']['configuration']]. *)
Definition configuration_of (result_ : dict) : option value :=
  match lookup "status" result_ with
  | Some (VDict status) => lookup "configuration" status
  | _ => None
  end.

(** The provider's side of the [maxResults] contract: a [search.list]
    response carries at most [maxResults] items. *)
Definition honours_maxResults (ext : Externals) : Prop :=
  forall p r,
    search_list_execute ext p = Ok r ->
    Z.of_nat (List.length (items r)) <= Z.max 0 (maxResults p).

(** A [videos.list] response carries at most one item per requested id. *)
Definition one_item_per_id (ext : Externals) : Prop :=
  forall ids fetched,
    videos_list_execute ext ids = Ok fetched ->
    (List.length fetched <= List.length ids)%nat.

(** Two configurations that differ at most in the values of credentials
    that are configured in both or in neither. *)
Definition same_truthiness (cfg1 cfg2 : Config) : Prop :=
  configured (YOUTUBE_API_KEY cfg1) = configured (YOUTUBE_API_KEY cfg2)
  /\ configured (FIREBASE_PROJECT_ID cfg1) = configured (FIREBASE_PROJECT_ID cfg2)
  /\ configured (ANTHROPIC_API_KEY cfg1) = configured (ANTHROPIC_API_KEY cfg2)
  /\ OUTPUT_DIR cfg1 = OUTPUT_DIR cfg2.

(** The text every unknown-tool answer ends with. *)
Definition known_tools_text : string :=
  "['search_videos', 'analyze_market', 'system_status']".

(** The arguments of an [analyze_market] call. *)
Definition market_arguments (topic : string) (sample_size : option Z) : Arguments :=
  {| arg_query := None; arg_max_results := None; arg_order := None;
     arg_region_code := None; arg_published_after_days := None;
     arg_topic := Some topic; arg_timeframe_days := None;
     arg_sample_size := sample_size; arg_include_detailed := None |}.

(** A registry with a handler that raises. *)
Definition rogue_tools : list (string * ToolInstance) :=
  [("rogue", mkToolInstance "rogue" "A handler that raises" (VDict [])
               (fun _ => Raise "boom"))].

(** The list [missing_vars] that [validate_config] builds. *)
Definition missing_vars_of (cfg : Config) : list string :=
  map fst
    (filter (fun kv => negb (configured (snd kv)))
       [("YOUTUBE_API_KEY", YOUTUBE_API_KEY cfg);
        ("FIREBASE_PROJECT_ID", FIREBASE_PROJECT_ID cfg);
        ("ANTHROPIC_API_KEY", ANTHROPIC_API_KEY cfg)]).

(** The module flag [_server_initialized] once [initialize_server] has
    run: the assignment is the last statement of its [try] block, so an
    exception leaves the flag as it was. *)
Definition flag_after (cfg : Config) (_server_initialized : bool) : bool :=
  match initialize_server cfg _server_initialized with
  | Ok flag => flag
  | Raise _ => _server_initialized
  end.

(** A raw item with every key the normalizer subscripts. *)
Definition has_required_keys (item : RawItem) : bool :=
  match snippet item, raw_id item with
  | Some snip, Some _ =>
      match raw_title snip, raw_channelId snip, raw_channelTitle snip,
            raw_publishedAt snip with
      | Some _, Some _, Some _, Some _ => true
      | _, _, _, _ => false
      end
  | _, _ => false
  end.

(** [x] occurs before [y] wherever both occur: [l] is [sub] with elements
    inserted. *)
Inductive subsequence {A : Type} : list A -> list A -> Prop :=
| subsequence_nil : subsequence [] []
| subsequence_skip x sub l : subsequence sub l -> subsequence sub (x :: l)
| subsequence_keep x sub l : subsequence sub l -> subsequence (x :: sub) (x :: l).

(** The optional date filter of [VideoSearchTool.call]: the validated
    instant of [_format_youtube_timestamp(published_after_days)], or nothing
    when the argument is absent. *)
Definition published_after_of (ext : Externals) (arguments : Arguments)
  : result (option datetime) :=
  match arg_published_after_days arguments with
  | Some days =>
      stamp <- _format_youtube_timestamp ext days ;;
      instant <- validate_datetime ext stamp ;;
      Ok (Some instant)
  | None => Ok None
  end.

(** The [SearchQuery] that [VideoSearchTool.call] builds. *)
Definition search_tool_query (arguments : Arguments)
    (published_after : option datetime) : SearchQuery :=
  mkSearchQuery (get_default (arg_query arguments) "")
                (Z.min (get_default (arg_max_results arguments) 10) 50)
                (get_default (arg_region_code arguments) "US") "en"
                published_after None
                (get_default (arg_order arguments) "relevance").

(** The date filter of [MarketAnalysisTool.call]. *)
Definition market_published_after (ext : Externals) (arguments : Arguments)
  : result datetime :=
  stamp <- _format_youtube_timestamp ext
             (get_default (arg_timeframe_days arguments) 30) ;;
  validate_datetime ext stamp.

(** The query of a market-analysis call. *)
Definition market_query_of (arguments : Arguments) (published_after : datetime)
  : SearchQuery :=
  market_search_query (get_default (arg_topic arguments) "")
    (Z.min (get_default (arg_sample_size arguments) 50) 100) published_after.

(** A provider whose [videos.list] endpoint fails on every request. *)
Definition details_down (ext : Externals) : Prop :=
  forall ids, exists e, videos_list_execute ext ids = Raise e.

(** [ext] with another [search.list] endpoint. *)
Definition override_search (ext : Externals)
    (search : SearchParams -> result SearchResponse) : Externals :=
  mkExternals
    (parse_duration ext) (int_of_str ext) (fromisoformat ext) (isoformat ext)
    (strftime_ymd ext) (validate_datetime ext)
    search
    (videos_list_execute ext)
    (utcnow_isoformat ext) (utcnow_minus_days_isoformat ext)
    (count_published_last_week ext)
    (boot_time ext) (cpu_percent ext) (memory_percent ext)
    (disk_usage_percent ext) (process_count ext) (network_connections ext)
    (format_percent2 ext) (format_fixed2 ext) (polarity ext)
    (std_exceeds_mean ext) (top_videos_records ext) (top_channels_records ext).

(** [ext] with another [videos.list] endpoint. *)
Definition override_details (ext : Externals)
    (details : list string -> result (list RawItem)) : Externals :=
  mkExternals
    (parse_duration ext) (int_of_str ext) (fromisoformat ext) (isoformat ext)
    (strftime_ymd ext) (validate_datetime ext)
    (search_list_execute ext)
    details
    (utcnow_isoformat ext) (utcnow_minus_days_isoformat ext)
    (count_published_last_week ext)
    (boot_time ext) (cpu_percent ext) (memory_percent ext)
    (disk_usage_percent ext) (process_count ext) (network_connections ext)
    (format_percent2 ext) (format_fixed2 ext) (polarity ext)
    (std_exceeds_mean ext) (top_videos_records ext) (top_channels_records ext).

(** The fixture with its detail endpoint failing. *)
Definition fixture_details_down : Externals :=
  override_details Fixture.externals (fun _ => Raise "HttpError 503").

(** The fixture with a search response whose second item has no videoId. *)
Definition fixture_bad_search : Externals :=
  override_search Fixture.externals
    (fun _ => Ok (mkSearchResponse [Some "v1"; None; Some "v3"] (Some 3))).

(** The fixture with its search endpoint failing. *)
Definition fixture_search_down : Externals :=
  override_search Fixture.externals (fun _ => Raise "HttpError 403: quotaExceeded").

(** The four insight texts of [_generate_market_insights] that do not
    depend on the data. *)
Definition variance_insight : string :=
  "High variance in video performance - opportunity for viral content".
Definition low_competition_insight : string :=
  "Low competition - good opportunity to establish authority".
Definition high_competition_insight : string :=
  "High competition - focus on unique angle or underserved subtopics".
Definition trending_insight : string :=
  "High recent activity - trending topic with immediate opportunity".

(** [result['status'][key]]. *)
Definition status_get (result_ : dict) (key : string) : option value :=
  match lookup "status" result_ with
  | Some (VDict status) => lookup key status
  | _ => None
  end.

(** Arguments of a [system_status] call. *)
Definition status_arguments (include_detailed : option bool) : Arguments :=
  mkArguments None None None None None None None None include_detailed.

(** Non-negative counts, the data model's invariant. *)
Definition counts_nonneg (s : VideoStats) : Prop :=
  0 <= view_count s /\ 0 <= like_count s /\ 0 <= comment_count s.


(* ------------------------------------------------------------------ *)
(** ** services/youtube_service.py: get_channel_info *)

(** [ChannelData]; the two analysis fields keep their default [None] and
    are left out. *)
Record ChannelData : Type := mkChannelData {
  ch_channel_id : string;
  ch_title : string;
  ch_description : string;
  subscriber_count : Z;
  video_count : Z;
  ch_view_count : Z;
  created_at : option datetime;
  ch_thumbnail_url : option string
}.

Record RawChannelStatistics : Type := mkRawChannelStatistics {
  subscriberCount : option string;
  videoCount : option string;
  channel_viewCount : option string
}.

(** A [channels.list] item; its snippet has the keys of a video snippet
    that the code reads (title, description, publishedAt, thumbnails). *)
Record RawChannel : Type := mkRawChannel {
  channel_snippet : option RawSnippet;
  channel_statistics : option RawChannelStatistics
}.

Section Channels.

Variable ext : Externals.
(** [channels().list(part='snippet,statistics', id=channel_id).execute()['items']]. *)
Variable channels_list_execute : string -> result (list RawChannel).

(** The [try] block of [get_channel_info]. *)
Definition get_channel_info_body (channel_id : string) : result (option ChannelData) :=
  channel_items <- channels_list_execute channel_id ;;
  match channel_items with
  | [] => Ok None
  | item :: _ =>
      snip <- subscript "snippet" (channel_snippet item) ;;
      let stat :=
        get_default (channel_statistics item)
                    (mkRawChannelStatistics None None None) in
      (* Parse creation date *)
      created <-
        match raw_publishedAt snip with
        | Some published =>
            instant <- fromisoformat ext (replace_char "Z" "+00:00" published) ;;
            Ok (Some instant)
        | None => Ok None
        end ;;
      title <- subscript "title" (raw_title snip) ;;
      subscribers <- int_stat ext (subscriberCount stat) ;;
      uploads <- int_stat ext (videoCount stat) ;;
      views <- int_stat ext (channel_viewCount stat) ;;
      Ok (Some {| ch_channel_id := channel_id;
                  ch_title := title;
                  ch_description := get_default (raw_description snip) "";
                  subscriber_count := subscribers;
                  video_count := uploads;
                  ch_view_count := views;
                  created_at := created;
                  ch_thumbnail_url :=
                    url (get_default
                           (high (get_default (raw_thumbnails snip)
                                              (mkRawThumbnails None)))
                           (mkRawThumbnail None)) |})
  end.

(** [YouTubeService.get_channel_info]. *)
Definition get_channel_info (channel_id : string) : option ChannelData :=
  try_except (get_channel_info_body channel_id) (fun _ => None).

End Channels.

(** A channel endpoint that answers every request with the same two
    channels. *)
Definition fixture_channels (channel_id : string) : result (list RawChannel) :=
  Ok [mkRawChannel
        (Some (mkRawSnippet (Some "Code School") None None None None None None))
        None;
      mkRawChannel
        (Some (mkRawSnippet (Some "Py Weekly") None None None
                            (Some "2019-03-01T09:00:00Z") None None))
        (Some (mkRawChannelStatistics (Some "1200") (Some "87") (Some "450000")))].

(* ------------------------------------------------------------------ *)
(** ** services/youtube_service.py: get_trending_videos *)

Section Trending.

Variable ext : Externals.
(** [videos().list(part=..., chart='mostPopular', regionCode=r,
    maxResults=n).execute()['items']]. *)
Variable chart_list_execute : string -> Z -> result (list RawItem).

(** [YouTubeService.get_trending_videos]. *)
Definition get_trending_videos (region_code : string) (max_results : Z)
  : list VideoData :=
  try_except
    (chart_items <- chart_list_execute region_code (Z.min max_results 50) ;;
     Ok (parse_items ext chart_items))
    (fun _ => []).

End Trending.

(** A chart endpoint that serves the fixture catalogue, cut at
    [maxResults]. *)
Definition fixture_chart (region_code : string) (n : Z) : result (list RawItem) :=
  if String.eqb region_code "US"
  then Ok (firstn (Z.to_nat n) (map snd Fixture.catalog))
  else Raise "HttpError 400: invalid region code".

(* ------------------------------------------------------------------ *)
(** ** mcp_server.py: two of the display templates *)

(** The digits of a non-negative number in reverse, a comma after every
    third digit that has a successor. *)
Fixpoint commas_rev (digits_rev : list ascii) (seen : nat) : list ascii :=
  match digits_rev with
  | [] => []
  | [c] => [c]
  | c :: rest =>
      if (seen =? 2)%nat then c :: ","%char :: commas_rev rest 0
      else c :: commas_rev rest (S seen)
  end.

(** [f"{n:,}"] for an [int]. *)
Definition format_commas (n : Z) : string :=
  (if n <? 0 then "-" else "")
  ++ string_of_list_ascii
       (rev (commas_rev (rev (list_ascii_of_string (str_int (Z.abs n)))) 0)).

(** [v[key]] for a string key.  Only a dictionary can answer; the text of
    the [TypeError] of the other types varies with the Python version and
    is never shown. *)
Definition value_subscript (v : value) (key : string) : result value :=
  match v with
  | VDict d =>
      match lookup key d with
      | Some x => Ok x
      | None => Raise (repr_str key)
      end
  | VStr _ => Raise "string indices must be integers"
  | VList _ => Raise "list indices must be integers or slices, not str"
  | _ => Raise "object is not subscriptable"
  end.

(** [v.get(key, default)]: [AttributeError] unless [v] is a dictionary. *)
Definition value_get (v : value) (key : string) (default : value) : result value :=
  match v with
  | VDict d => Ok (dict_get d key default)
  | _ => Raise "object has no attribute 'get'"
  end.

(** [list(v[:10])]: the elements a [for] loop over the slice visits. *)
Definition first_ten (v : value) : result (list value) :=
  match v with
  | VList l => Ok (firstn 10 l)
  | VStr s =>
      Ok (map (fun c => VStr (String c "")) (firstn 10 (list_ascii_of_string s)))
  | _ => Raise "object is not subscriptable"
  end.

(** ['error' in v]. *)
Definition contains_error (v : value) : result bool :=
  match v with
  | VDict d => Ok (match lookup "error" d with Some _ => true | None => false end)
  | VList l =>
      Ok (existsb (fun x => match x with
                            | VStr s => String.eqb s "error"
                            | _ => false
                            end) l)
  | VStr s => Ok (contains "error" s)
  | _ => Raise "argument is not iterable"
  end.

(** The non-ASCII marks of the status template, as the source file has
    them. *)
Definition bullet : string := "â€¢".
Definition bolt : string := "âš¡".
Definition configuration_heading : string := "**ðŸ”§ Configuration**".
Definition metrics_heading : string := "**ðŸ“Š System Metrics**".

Definition newline : string := String "010" "".

Section Templates.

Variable display : Display.
(** [f"{x:,}"] for a float. *)
Variable float_commas : Q -> string.

(** [f"{v:,}"]. *)
Definition format_commas_value (v : value) : result string :=
  match v with
  | VInt n => Ok (format_commas n)
  | VBool b => Ok (if b then "1" else "0")
  | VFloat x => Ok (float_commas x)
  | VStr _ => Raise "Cannot specify ',' with 's'."
  | _ => Raise "unsupported format string passed to __format__"
  end.

Definition commas_at (video : value) (key : string) : result string :=
  v <- value_subscript video key ;;
  format_commas_value v.

Definition str_at (video : value) (key : string) : result string :=
  v <- value_subscript video key ;;
  Ok (str_value display v).

(** The body of the loop [for i, video in enumerate(videos[:10], 1)]. *)
Fixpoint video_lines (i : Z) (videos : list value) : result (list string) :=
  match videos with
  | [] => Ok []
  | video :: rest =>
      title <- str_at video "title" ;;
      channel <- str_at video "channel" ;;
      views <- commas_at video "views" ;;
      likes <- commas_at video "likes" ;;
      comments <- commas_at video "comments" ;;
      engagement <- str_at video "engagement_rate" ;;
      published <- str_at video "published" ;;
      duration <- str_at video "duration" ;;
      category <- str_at video "category" ;;
      link <- str_at video "url" ;;
      more <- video_lines (i + 1) rest ;;
      Ok (app
          [str_int i ++ ". **" ++ title ++ "**";
           "   Channel: " ++ channel;
           "   Views: " ++ views ++ " | Likes: " ++ likes
             ++ " | Comments: " ++ comments;
           "   Engagement: " ++ engagement ++ " | Published: " ++ published;
           "   Duration: " ++ duration ++ " | Category: " ++ category;
           "   URL: " ++ link;
           ""] more)
  end.

(** The list [response] of [format_video_search_response]. *)
Definition format_video_search_lines (result_ : dict) : result (list string) :=
  let header :=
    ["**YouTube Video Search Results**";
     "Query: " ++ str_value display (dict_get result_ "query" (VStr "Unknown"));
     "Found: " ++ str_value display (dict_get result_ "videos_found" (VInt 0))
       ++ " videos";
     "Average Engagement: "
       ++ str_value display (dict_get result_ "average_engagement" (VStr "N/A"));
     ""] in
  shown <- first_ten (dict_get result_ "videos" (VList [])) ;;
  body <- video_lines 1 shown ;;
  Ok (app header body).

(** [format_video_search_response]. *)
Definition format_video_search_response_src (result_ : dict) : result string :=
  response <- format_video_search_lines result_ ;;
  Ok (join newline response).

Definition configured_text (flag : value) : string :=
  if truthy flag then "Configured" else "Not Configured".

(** The list [response] of [format_system_status_response]. *)
Definition format_system_status_lines (result_ : dict) : result (list string) :=
  let status := dict_get result_ "status" (VDict []) in
  server_name <- value_get status "server_name" (VStr "YouTube Intelligence") ;;
  version <- value_get status "version" (VStr "Unknown") ;;
  state <- value_get status "status" (VStr "Unknown") ;;
  timestamp <- value_get status "timestamp" (VStr "Unknown") ;;
  (* Configuration *)
  config <- value_get status "configuration" (VDict []) ;;
  youtube <- value_get config "youtube_api_configured" VNone ;;
  firebase <- value_get config "firebase_configured" VNone ;;
  claude <- value_get config "claude_api_configured" VNone ;;
  max_videos <- value_get config "max_videos_per_search" (VStr "Unknown") ;;
  (* System Metrics (if available) *)
  metrics <- value_get status "system_metrics" (VDict []) ;;
  metrics_lines <-
    (if truthy metrics
     then
       has_error <- contains_error metrics ;;
       if negb has_error
       then
         cpu <- value_get metrics "cpu_percent" (VStr "Unknown") ;;
         memory <- value_get metrics "memory_percent" (VStr "Unknown") ;;
         disk <- value_get metrics "disk_usage_percent" (VStr "Unknown") ;;
         Ok [metrics_heading;
             bullet ++ " CPU Usage: " ++ str_value display cpu ++ "%";
             bullet ++ " Memory Usage: " ++ str_value display memory ++ "%";
             bullet ++ " Disk Usage: " ++ str_value display disk ++ "%"]
       else Ok []
     else Ok []) ;;
  Ok (app
      [bolt ++ " **" ++ str_value display server_name ++ " System Status**";
       "Version: " ++ str_value display version;
       "Status: " ++ str_value display state;
       "Timestamp: " ++ str_value display timestamp;
       "";
       configuration_heading;
       bullet ++ " YouTube API: " ++ configured_text youtube;
       bullet ++ " Firebase: " ++ configured_text firebase;
       bullet ++ " Claude API: " ++ configured_text claude;
       bullet ++ " Max Videos Per Search: " ++ str_value display max_videos;
       ""] metrics_lines).

(** [format_system_status_response]. *)
Definition format_system_status_response_src (result_ : dict) : result string :=
  response <- format_system_status_lines result_ ;;
  Ok (join newline response).

End Templates.

(* ================================================================== *)
(** * Basic facts *)
(* ================================================================== *)

Lemma prefix_append (s t : string) : String.prefix s (s ++ t) = true.
Proof.
  induction s as [|c s IH]; simpl.
  - now destruct t.
  - destruct (ascii_dec c c) as [_|ne]; [exact IH | now destruct ne].
Qed.

Lemma prefix_append_r (n s t : string) :
  String.prefix n s = true -> String.prefix n (s ++ t) = true.
Proof.
  revert s. induction n as [|c n IH]; intros s H.
  - now destruct (s ++ t).
  - destruct s as [|a s]; simpl in *; [discriminate|].
    destruct (ascii_dec c a); [now apply IH | discriminate].
Qed.

Lemma contains_unfold (n hay : string) :
  contains n hay
  = (String.prefix n hay
     || match hay with
        | EmptyString => false
        | String _ hay' => contains n hay'
        end)%bool.
Proof. destruct hay; reflexivity. Qed.

Lemma contains_here (n t : string) : contains n (n ++ t) = true.
Proof. rewrite contains_unfold, prefix_append. reflexivity. Qed.

Lemma contains_skip (p n t : string) :
  contains n t = true -> contains n (p ++ t) = true.
Proof.
  intros H. induction p as [|c p IH]; simpl; [exact H|].
  rewrite IH. apply orb_true_r.
Qed.

Lemma contains_append_r (n s t : string) :
  contains n s = true -> contains n (s ++ t) = true.
Proof.
  induction s as [|c s IH]; intros H.
  - simpl in H. rewrite orb_false_r in H.
    destruct n; [|discriminate]. now destruct t.
  - rewrite contains_unfold in H. rewrite contains_unfold. simpl append.
    apply orb_true_iff in H as [H|H]; apply orb_true_iff.
    + left. now apply (prefix_append_r n (String c s) t).
    + right. now apply IH.
Qed.

Lemma contains_middle (p n t : string) : contains n (p ++ n ++ t) = true.
Proof. apply contains_skip, contains_here. Qed.

Lemma lower_append (s t : string) : lower (s ++ t) = lower s ++ lower t.
Proof. induction s as [|c s IH]; simpl; [reflexivity | now rewrite IH]. Qed.

Lemma bind_Ok {A B : Type} (m : result A) (k : A -> result B) (b : B) :
  bind m k = Ok b -> exists a, m = Ok a /\ k a = Ok b.
Proof. destruct m as [a|e]; simpl; [eauto | discriminate]. Qed.

Lemma bind_Raise {A B : Type} (m : result A) (k : A -> result B) (e : string) :
  m = Raise e -> bind m k = Raise e.
Proof. now intros ->. Qed.

(* ================================================================== *)
(** * Engagement rate *)
(* ================================================================== *)

Lemma engagement_rate_total (s : VideoStats) :
  engagement_rate_py s = Ok (engagement_rate s).
Proof.
  unfold engagement_rate, engagement_rate_py, truediv.
  destruct (view_count s =? 0); reflexivity.
Qed.

(** C1.  For every video record the engagement rate is
    (like_count + comment_count) / view_count when view_count > 0 and is
    exactly 0 when view_count = 0; the property does not raise
    [ZeroDivisionError], and with floats read as rationals it does not
    raise at all. *)
Theorem engagement_rate_spec (s : VideoStats) :
  (0 < view_count s ->
     engagement_rate_py s
       = Ok (inject_Z (like_count s + comment_count s) / inject_Z (view_count s))%Q
     /\ (engagement_rate s
           == (like_count s + comment_count s) # Z.to_pos (view_count s))%Q)
  /\ (view_count s = 0 ->
        engagement_rate_py s = Ok 0%Q /\ engagement_rate s = 0%Q)
  /\ engagement_rate_py s <> Raise "division by zero"
  /\ (exists rate, engagement_rate_py s = Ok rate).
Proof.
  split; [|split; [|split]].
  - intros Hpos.
    assert (Hpy : engagement_rate_py s
                  = Ok (inject_Z (like_count s + comment_count s)
                        / inject_Z (view_count s))%Q).
    { unfold engagement_rate_py, truediv.
      destruct (Z.eqb_spec (view_count s) 0) as [E|_]; [lia | reflexivity]. }
    split; [exact Hpy|].
    unfold engagement_rate. rewrite Hpy. simpl.
    destruct (view_count s) as [|p|p]; try lia.
    simpl Z.to_pos. symmetry. apply Qmake_Qdiv.
  - intros Hzero. unfold engagement_rate, engagement_rate_py.
    rewrite Hzero. simpl. split; reflexivity.
  - rewrite engagement_rate_total. discriminate.
  - exists (engagement_rate s). apply engagement_rate_total.
Qed.

Lemma engagement_rate_spec_witness :
  engagement_rate_py (mkVideoStats 1000 50 10 930) = Ok (inject_Z 60 / inject_Z 1000)%Q
  /\ (engagement_rate (mkVideoStats 1000 50 10 930) == 6 # 100)%Q
  /\ engagement_rate (mkVideoStats 0 7 3 0) = 0%Q.
Proof.
  destruct (engagement_rate_spec (mkVideoStats 1000 50 10 930)) as [Hpos _].
  destruct (engagement_rate_spec (mkVideoStats 0 7 3 0)) as [_ [Hzero _]].
  destruct (Hpos ltac:(simpl; lia)) as [H1 H2].
  destruct (Hzero ltac:(reflexivity)) as [_ H3].
  split; [exact H1|]. split; [|exact H3].
  rewrite H2. reflexivity.
Defined.

(* ================================================================== *)
(** * Category inference *)
(* ================================================================== *)

Lemma categorize_first_match (title description : string) :
  _categorize_video title description
  = first_match priority_rules (content_of title description).
Proof. reflexivity. Qed.

Lemma any_in_member (content word : string) (words : list string) :
  In word words -> contains word content = true -> any_in content words = true.
Proof.
  intros Hin Hc. unfold any_in. apply existsb_exists. now exists word.
Qed.

(** C5.  Category inference runs on the lower-cased text of title
    and description (joined by one space), is a function of that text, and
    tries the keyword sets in the order education, technology, gaming,
    music, news, sports: the first set with a keyword in the text decides,
    and no match gives [OTHER].  A text containing both "tutorial" and
    "game" is [EDUCATION]. *)
Theorem categorize_priority (title description : string) :
  _categorize_video title description
    = first_match priority_rules (content_of title description)
  /\ map fst priority_rules = [EDUCATION; TECHNOLOGY; GAMING; MUSIC; NEWS; SPORTS]
  /\ (forall title' description',
        content_of title' description' = content_of title description ->
        _categorize_video title' description' = _categorize_video title description)
  /\ ((forall words, In words (map snd priority_rules) ->
         any_in (content_of title description) words = false) ->
      _categorize_video title description = OTHER)
  /\ (contains "tutorial" (content_of title description) = true ->
      contains "game" (content_of title description) = true ->
      _categorize_video title description = EDUCATION).
Proof.
  split; [apply categorize_first_match|].
  split; [reflexivity|].
  split; [|split].
  - intros t' d' E. rewrite !categorize_first_match. now rewrite E.
  - intros Hnone. rewrite categorize_first_match.
    unfold priority_rules, first_match.
    rewrite !Hnone by (simpl; auto 10). reflexivity.
  - intros Htut _. rewrite categorize_first_match.
    unfold priority_rules, first_match.
    rewrite (any_in_member _ "tutorial"); [reflexivity | simpl; auto | exact Htut].
Qed.

Lemma categorize_priority_witness :
  _categorize_video "Minecraft GAME Tutorial" "let's play" = EDUCATION
  /\ _categorize_video "Sunset timelapse" "4k" = OTHER.
Proof.
  split.
  - apply (categorize_priority "Minecraft GAME Tutorial" "let's play");
      vm_compute; reflexivity.
  - apply (categorize_priority "Sunset timelapse" "4k").
    intros words Hin. simpl in Hin.
    repeat (destruct Hin as [<-|Hin]; [vm_compute; reflexivity|]).
    destruct Hin.
Defined.

(** The rule order is observable: the same keywords in the other order of
    priority would give another category. *)
Lemma categorize_order_sensitive :
  _categorize_video "game tutorial" "" = EDUCATION
  /\ first_match (rev priority_rules) (content_of "game tutorial" "") = GAMING.
Proof. split; vm_compute; reflexivity. Qed.

(** A keyword in the title alone already decides. *)
Lemma categorize_title_keyword (title description : string) :
  contains "tutorial" (lower title) = true ->
  _categorize_video title description = EDUCATION.
Proof.
  intros H. rewrite categorize_first_match.
  unfold priority_rules, first_match.
  rewrite (any_in_member _ "tutorial"); [reflexivity | simpl; auto |].
  unfold content_of. rewrite lower_append. now apply contains_append_r.
Qed.

(* ================================================================== *)
(** * Competition level *)
(* ================================================================== *)

(** [nunique] counts each distinct value once. *)
Lemma nunique_distinct (l : list string) :
  exists distinct,
    NoDup distinct
    /\ (forall x, In x distinct <-> In x l)
    /\ nunique l = Z.of_nat (List.length distinct).
Proof.
  exists (nodup string_dec l). split; [apply NoDup_nodup|].
  split; [intros x; apply nodup_In | reflexivity].
Qed.

Lemma competition_level_cases (n : Z) :
  (30 < n -> competition_level_of n = "High")
  /\ (15 < n <= 30 -> competition_level_of n = "Medium")
  /\ (n <= 15 -> competition_level_of n = "Low").
Proof.
  unfold competition_level_of.
  repeat split; intros H;
    destruct (Z.gtb_spec n 30); destruct (Z.gtb_spec n 15);
    try reflexivity; lia.
Qed.

(** C4.  The competition level of a market analysis is decided by
    the number of distinct channel titles in the sample alone: more than 30
    gives "High", more than 15 and at most 30 gives "Medium", at most 15
    gives "Low"; so 31 is "High", 30 is "Medium" and 15 is "Low". *)
Theorem competition_level_tiers
    (ext : Externals) (videos : list VideoData) (topic : string) (n : Z) :
  nunique (map channel_title videos) = n ->
  market_overview_get (_analyze_market_data ext videos topic) "unique_creators"
    = Some (VInt n)
  /\ market_overview_get (_analyze_market_data ext videos topic) "competition_level"
     = Some (VStr (competition_level_of n))
  /\ (30 < n -> competition_level_of n = "High")
  /\ (15 < n <= 30 -> competition_level_of n = "Medium")
  /\ (n <= 15 -> competition_level_of n = "Low")
  /\ competition_level_of 31 = "High"
  /\ competition_level_of 30 = "Medium"
  /\ competition_level_of 15 = "Low".
Proof.
  intros <-.
  split; [reflexivity|]. split; [reflexivity|].
  pose proof (competition_level_cases (nunique (map channel_title videos)))
    as (Hhigh & Hmedium & Hlow).
  repeat split; auto.
Qed.

Lemma competition_level_tiers_witness :
  market_overview_get
    (_analyze_market_data Fixture.externals (sample_videos 31 31) "python")
    "competition_level" = Some (VStr "High")
  /\ market_overview_get
       (_analyze_market_data Fixture.externals (sample_videos 40 10) "python")
       "competition_level" = Some (VStr "Low").
Proof.
  split.
  - destruct (competition_level_tiers Fixture.externals (sample_videos 31 31)
                "python" 31 ltac:(vm_compute; reflexivity))
      as (_ & Hlevel & _).
    exact Hlevel.
  - destruct (competition_level_tiers Fixture.externals (sample_videos 40 10)
                "python" 10 ltac:(vm_compute; reflexivity))
      as (_ & Hlevel & _).
    exact Hlevel.
Defined.

(* ================================================================== *)
(** * Record normalizer *)
(* ================================================================== *)

Section NormalizerFacts.

Variable ext : Externals.

Lemma parse_items_app (l1 l2 : list RawItem) :
  parse_items ext (l1 ++ l2) = (parse_items ext l1 ++ parse_items ext l2)%list.
Proof.
  induction l1 as [|item l1 IH]; simpl; [reflexivity|].
  destruct (_parse_video_item ext item); simpl; now rewrite IH.
Qed.

Lemma parse_items_length (l : list RawItem) :
  (List.length (parse_items ext l) <= List.length l)%nat.
Proof.
  induction l as [|item l IH]; simpl; [lia|].
  destruct (_parse_video_item ext item); simpl; lia.
Qed.

(** A record that is normalized carries the parsed duration and the raw
    duration string. *)
Lemma parse_video_item_duration (item : RawItem) (video : VideoData) :
  _parse_video_item ext item = Some video ->
  parse_duration ext (duration_str_of item) = Ok (duration_seconds (stats video))
  /\ duration video = duration_str_of item.
Proof.
  unfold _parse_video_item, _parse_video_item_body, duration_str_of.
  destruct (snippet item) as [snip|]; simpl; [|discriminate].
  destruct (parse_duration ext _) as [secs|]; simpl; [|discriminate].
  destruct (int_stat ext _); simpl; [|discriminate].
  destruct (int_stat ext _); simpl; [|discriminate].
  destruct (int_stat ext _); simpl; [|discriminate].
  destruct (raw_publishedAt snip); simpl; [|discriminate].
  destruct (fromisoformat ext _); simpl; [|discriminate].
  destruct (raw_id item); simpl; [|discriminate].
  destruct (raw_title snip); simpl; [|discriminate].
  destruct (raw_channelId snip); simpl; [|discriminate].
  destruct (raw_channelTitle snip); simpl; [|discriminate].
  intros [= <-]. simpl. split; reflexivity.
Qed.

Lemma malformed_duration_None (item : RawItem) (e : string) :
  parse_duration ext (duration_str_of item) = Raise e ->
  _parse_video_item ext item = None.
Proof.
  unfold _parse_video_item, _parse_video_item_body, duration_str_of.
  intros H. destruct (snippet item); simpl; [|reflexivity].
  rewrite H. reflexivity.
Qed.

End NormalizerFacts.

(** C3 (as amended).  A raw record whose duration string is
    malformed is not normalized at all: [_parse_video_item] gives [None], the
    record is left out of the batch, and the records around it are
    normalized as they would be without it. *)
Theorem malformed_duration_dropped
    (ext : Externals) (item : RawItem) (e : string) :
  parse_duration ext (duration_str_of item) = Raise e ->
  _parse_video_item ext item = None
  /\ (forall before after,
        parse_items ext (before ++ item :: after)
        = (parse_items ext before ++ parse_items ext after)%list)
  /\ (forall ids before after,
        videos_list_execute ext ids = Ok (before ++ item :: after)%list ->
        _fetch_video_batch ext ids
        = (parse_items ext before ++ parse_items ext after)%list).
Proof.
  intros Hbad.
  pose proof (malformed_duration_None ext item e Hbad) as Hnone.
  assert (Hdrop : forall before after,
             parse_items ext (before ++ item :: after)
             = (parse_items ext before ++ parse_items ext after)%list).
  { intros before after. rewrite parse_items_app. simpl. now rewrite Hnone. }
  split; [exact Hnone|]. split; [exact Hdrop|].
  intros ids before after Hresp. unfold _fetch_video_batch.
  rewrite Hresp. simpl. apply Hdrop.
Qed.

Lemma malformed_duration_dropped_witness :
  _parse_video_item Fixture.externals Fixture.item_v2 = None
  /\ map video_id (_fetch_video_batch Fixture.externals ["v1"; "v2"; "v3"])
     = ["v1"; "v3"].
Proof.
  destruct (malformed_duration_dropped Fixture.externals Fixture.item_v2
              "Unable to parse duration string abc" ltac:(reflexivity))
    as (Hnone & _ & Hbatch).
  split; [exact Hnone|].
  rewrite (Hbatch ["v1"; "v2"; "v3"] [Fixture.item_v1] [Fixture.item_v3]
             ltac:(reflexivity)).
  vm_compute. reflexivity.
Defined.

(** The claim as stated fails: the record with duration "abc" does not
    become a [VideoData] with [duration_seconds = 0]; it is dropped from its
    batch. *)
Lemma malformed_duration_counterexample :
  duration_str_of Fixture.item_v2 = "abc"
  /\ parse_duration Fixture.externals "abc"
     = Raise "Unable to parse duration string abc"
  /\ ~ (exists video,
          _parse_video_item Fixture.externals Fixture.item_v2 = Some video
          /\ duration_seconds (stats video) = 0)
  /\ map video_id (_fetch_video_batch Fixture.externals ["v1"; "v2"; "v3"])
     = ["v1"; "v3"].
Proof.
  split; [reflexivity|]. split; [reflexivity|]. split.
  - intros (video & Hsome & _). vm_compute in Hsome. discriminate.
  - vm_compute. reflexivity.
Qed.

(* ================================================================== *)
(** * Tool registry: list_tools and call_tool *)
(* ================================================================== *)

Lemma find_tool_None (tools : list (string * ToolInstance)) (tool_name : string) :
  find_tool tools tool_name = None <-> ~ In tool_name (map fst tools).
Proof.
  induction tools as [|[k t] tools IH]; simpl.
  - tauto.
  - destruct (String.eqb_spec k tool_name) as [->|ne].
    + split; [discriminate | intros H; exfalso; apply H; now left].
    + rewrite IH. split; [intros H [E|Hin]; [now apply ne | now apply H] | tauto].
Qed.

Lemma find_tool_Some (tools : list (string * ToolInstance))
    (tool_name : string) (t : ToolInstance) :
  find_tool tools tool_name = Some t -> In tool_name (map fst tools).
Proof.
  induction tools as [|[k t'] tools IH]; simpl; [discriminate|].
  destruct (String.eqb_spec k tool_name) as [->|ne]; [now left | right; auto].
Qed.

(** The registry holds three entries, each under the name of its tool. *)
Lemma youtube_tools_names (ext : Externals) (cfg : Config) :
  map fst (youtube_tools ext cfg)
    = ["search_videos"; "analyze_market"; "system_status"]
  /\ map (fun entry => name (snd entry)) (youtube_tools ext cfg)
     = map fst (youtube_tools ext cfg).
Proof. split; reflexivity. Qed.

(** C7.  [list_tools] before initialization returns the empty list,
    without raising; once [initialize_server] has succeeded the flag is
    set and [list_tools] returns exactly the three registered descriptors,
    named search_videos, analyze_market and system_status, in that
    order. *)
Theorem list_tools_guarded (ext : Externals) (cfg : Config) :
  list_tools ext cfg false = []
  /\ list_tools ext cfg true
     = map (fun entry => mkTool (name (snd entry)) (description_ (snd entry))
                                (inputSchema (snd entry)))
           (youtube_tools ext cfg)
  /\ map tool_name (list_tools ext cfg true)
     = ["search_videos"; "analyze_market"; "system_status"]
  /\ List.length (list_tools ext cfg true) = 3%nat
  /\ (forall flag,
        match initialize_server cfg flag with
        | Ok flag' => flag' = true
        | Raise _ => validate_config cfg <> Ok true
        end).
Proof.
  repeat split.
  intros flag. unfold initialize_server.
  destruct (validate_config cfg) eqn:E; simpl; [reflexivity | discriminate].
Qed.

(** Initialization succeeds exactly when the three credentials are
    configured. *)
Lemma initialize_server_configured (cfg : Config) (flag : bool) :
  initialize_server cfg flag = Ok true
  <-> configured (YOUTUBE_API_KEY cfg) = true
      /\ configured (FIREBASE_PROJECT_ID cfg) = true
      /\ configured (ANTHROPIC_API_KEY cfg) = true.
Proof.
  unfold initialize_server, validate_config. simpl.
  destruct (configured (YOUTUBE_API_KEY cfg));
    destruct (configured (FIREBASE_PROJECT_ID cfg));
    destruct (configured (ANTHROPIC_API_KEY cfg)); simpl;
    intuition discriminate.
Qed.

Section Dispatch.

Variable display : Display.
Variable tools : list (string * ToolInstance).

Lemma call_tool_not_ready (tool_name : string) (arguments : Arguments) :
  call_tool_in display tools false tool_name arguments
  = text_content
      "Error: Server not yet initialized. Please wait for initialization to complete.".
Proof. reflexivity. Qed.

Lemma call_tool_unknown (tool_name : string) (arguments : Arguments) :
  find_tool tools tool_name = None ->
  call_tool_body display tools true tool_name arguments
  = Ok (text_content
          ("Error: Tool '" ++ tool_name ++ "' not found. Available tools: "
           ++ str_list (map fst tools))).
Proof. intros H. unfold call_tool_body. simpl. now rewrite H. Qed.

Lemma call_tool_handled (tool_name : string) (arguments : Arguments)
    (t : ToolInstance) :
  find_tool tools tool_name = Some t ->
  call_tool_in display tools true tool_name arguments
  = match call t arguments with
    | Ok result_ =>
        if truthy (dict_get result_ "success" (VBool false))
        then text_content (format_tool_response display tool_name result_)
        else text_content
               ("Tool execution failed: "
                ++ str_value display
                     (dict_get result_ "message" (VStr "Unknown error")))
    | Raise e =>
        text_content ("Error executing tool '" ++ tool_name ++ "': " ++ e)
    end.
Proof.
  intros H. unfold call_tool_in, call_tool_body. simpl. rewrite H.
  destruct (call t arguments) as [result_|e]; simpl; [|reflexivity].
  destruct (truthy _); reflexivity.
Qed.

End Dispatch.

(** C2.  With the server initialized, a call under a name that is
    not a key of the registry returns normally (the [try] block of
    [call_tool] does not raise) with a single text whose message names the
    three registered tools: search_videos, analyze_market and
    system_status. *)
Theorem unknown_tool_enumerates
    (ext : Externals) (cfg : Config) (display : Display)
    (tool_name : string) (arguments : Arguments) :
  ~ In tool_name (map fst (youtube_tools ext cfg)) ->
  let message :=
    "Error: Tool '" ++ tool_name ++ "' not found. Available tools: "
    ++ known_tools_text in
  call_tool_body display (youtube_tools ext cfg) true tool_name arguments
    = Ok (text_content message)
  /\ call_tool ext cfg display true tool_name arguments = text_content message
  /\ contains "search_videos" message = true
  /\ contains "analyze_market" message = true
  /\ contains "system_status" message = true.
Proof.
  intros Hunknown message.
  apply find_tool_None in Hunknown.
  pose proof (call_tool_unknown display _ tool_name arguments Hunknown) as Hbody.
  change (str_list (map fst (youtube_tools ext cfg))) with known_tools_text in Hbody.
  split; [exact Hbody|].
  split; [unfold call_tool, call_tool_in; now rewrite Hbody|].
  assert (Hsuffix : forall w,
             contains w known_tools_text = true -> contains w message = true).
  { intros w Hw. unfold message.
    do 3 apply contains_skip. exact Hw. }
  repeat split; apply Hsuffix; vm_compute; reflexivity.
Qed.

Lemma unknown_tool_enumerates_witness :
  call_tool Fixture.externals Fixture.config Fixture.display true
            "delete_videos" no_arguments
  = text_content
      "Error: Tool 'delete_videos' not found. Available tools: ['search_videos', 'analyze_market', 'system_status']".
Proof.
  apply (unknown_tool_enumerates Fixture.externals Fixture.config Fixture.display
           "delete_videos" no_arguments).
  simpl. intros [H|[H|[H|[]]]]; discriminate.
Defined.

(** The registered handlers catch their own exceptions: each returns a
    result dictionary. *)
Lemma registered_handlers_return
    (ext : Externals) (cfg : Config) (tool_name : string) (t : ToolInstance)
    (arguments : Arguments) :
  find_tool (youtube_tools ext cfg) tool_name = Some t ->
  exists result_, call t arguments = Ok result_.
Proof.
  unfold youtube_tools, find_tool.
  repeat (destruct (String.eqb _ tool_name);
          [intros [= <-]; simpl; eexists; reflexivity|]).
  discriminate.
Qed.

(** C6 (as amended).  No exception leaves [call_tool]: every call
    returns one text.  A handler result without a true [success] surfaces
    as "Tool execution failed: <message>"; an exception that escapes a
    handler surfaces as "Error executing tool '<name>': <exception>"; a
    call before initialization and a call to an unknown tool surface as
    "Error: ..." texts. *)
Theorem call_tool_failure_texts
    (display : Display) (tools : list (string * ToolInstance))
    (flag : bool) (tool_name : string) (arguments : Arguments) :
  exists shown,
    call_tool_in display tools flag tool_name arguments = text_content shown
    /\ (flag = false ->
        shown = "Error: Server not yet initialized. Please wait for initialization to complete.")
    /\ (flag = true -> find_tool tools tool_name = None ->
        shown = "Error: Tool '" ++ tool_name ++ "' not found. Available tools: "
                ++ str_list (map fst tools))
    /\ (forall t, flag = true -> find_tool tools tool_name = Some t ->
          (forall e, call t arguments = Raise e ->
             shown = "Error executing tool '" ++ tool_name ++ "': " ++ e)
          /\ (forall result_, call t arguments = Ok result_ ->
                truthy (dict_get result_ "success" (VBool false)) = false ->
                shown = "Tool execution failed: "
                        ++ str_value display
                             (dict_get result_ "message" (VStr "Unknown error")))
          /\ (forall result_, call t arguments = Ok result_ ->
                truthy (dict_get result_ "success" (VBool false)) = true ->
                shown = format_tool_response display tool_name result_)).
Proof.
  destruct flag.
  - destruct (find_tool tools tool_name) as [t|] eqn:Hfind.
    + rewrite (call_tool_handled display tools tool_name arguments t Hfind).
      destruct (call t arguments) as [result_|e] eqn:Hcall.
      * destruct (truthy (dict_get result_ "success" (VBool false))) eqn:Hok;
          eexists; (split; [reflexivity|]);
          (split; [discriminate|]); (split; [discriminate|]);
          intros t' _ [= <-]; rewrite Hcall;
          (split; [discriminate|]);
          split; intros r [= <-] Hr; congruence.
      * eexists; split; [reflexivity|].
        split; [discriminate|]. split; [discriminate|].
        intros t' _ [= <-]. rewrite Hcall.
        split; [now intros e' [= <-]|]. split; discriminate.
    + eexists. split.
      * unfold call_tool_in.
        now rewrite (call_tool_unknown display tools tool_name arguments Hfind).
      * split; [discriminate|]. split; [reflexivity|]. discriminate.
  - eexists. split; [apply call_tool_not_ready|].
    split; [reflexivity|]. split; discriminate.
Qed.

Lemma call_tool_failure_texts_witness :
  call_tool Fixture.externals Fixture.config Fixture.display true
            "analyze_market" (market_arguments "cooking" None)
  = text_content "Tool execution failed: No videos found for topic: cooking"
  /\ call_tool_in Fixture.display rogue_tools true "rogue" no_arguments
     = text_content "Error executing tool 'rogue': boom".
Proof.
  split.
  - destruct (call_tool_failure_texts Fixture.display
                (youtube_tools Fixture.externals Fixture.config) true
                "analyze_market" (market_arguments "cooking" None))
      as (shown & Heq & _ & _ & Hhandled).
    destruct (Hhandled (MarketAnalysisTool Fixture.externals) eq_refl eq_refl)
      as (_ & Hfailed & _).
    unfold call_tool. rewrite Heq.
    rewrite (Hfailed _ eq_refl ltac:(vm_compute; reflexivity)).
    vm_compute. reflexivity.
  - destruct (call_tool_failure_texts Fixture.display rogue_tools true
                "rogue" no_arguments)
      as (shown & Heq & _ & _ & Hhandled).
    destruct (Hhandled _ eq_refl eq_refl) as (Hraised & _).
    rewrite Heq, (Hraised "boom" eq_refl). reflexivity.
Defined.

(** The claim as stated fails: the failure of a call to an unknown tool,
    and of a call before initialization, is not shown as
    "Tool execution failed: ...". *)
Lemma failure_text_counterexample :
  ~ (exists rest,
       call_tool Fixture.externals Fixture.config Fixture.display true
                 "delete_videos" no_arguments
       = text_content ("Tool execution failed: " ++ rest))
  /\ ~ (exists rest,
          call_tool Fixture.externals Fixture.config Fixture.display false
                    "system_status" no_arguments
          = text_content ("Tool execution failed: " ++ rest)).
Proof.
  split; intros (rest & H); vm_compute in H; discriminate.
Qed.

(* ================================================================== *)
(** * Market analysis: the empty sample *)
(* ================================================================== *)

(** C8.  When the search of a market-analysis call returns no
    video, the handler returns (it does not raise) a result whose [success]
    is [False] and whose message contains the requested topic. *)
Theorem no_videos_failure
    (ext : Externals) (arguments : Arguments)
    (stamp : string) (published_after : datetime) (results : SearchResult) :
  let topic := get_default (arg_topic arguments) "" in
  let timeframe_days := get_default (arg_timeframe_days arguments) 30 in
  let sample_size := Z.min (get_default (arg_sample_size arguments) 50) 100 in
  _format_youtube_timestamp ext timeframe_days = Ok stamp ->
  validate_datetime ext stamp = Ok published_after ->
  search_videos ext (market_search_query topic sample_size published_after)
    = Ok results ->
  videos results = [] ->
  MarketAnalysisTool_call ext arguments
    = [("success", VBool false);
       ("message", VStr ("No videos found for topic: " ++ topic))]
  /\ lookup "success" (MarketAnalysisTool_call ext arguments) = Some (VBool false)
  /\ (exists message,
        lookup "message" (MarketAnalysisTool_call ext arguments)
          = Some (VStr message)
        /\ contains topic message = true).
Proof.
  intros topic timeframe_days sample_size Hstamp Hvalid Hsearch Hempty.
  assert (Hcall : MarketAnalysisTool_call ext arguments
                  = [("success", VBool false);
                     ("message", VStr ("No videos found for topic: " ++ topic))]).
  { unfold MarketAnalysisTool_call.
    fold topic timeframe_days sample_size.
    rewrite Hstamp. simpl. rewrite Hvalid. simpl.
    rewrite Hsearch. simpl. rewrite Hempty. reflexivity. }
  split; [exact Hcall|]. rewrite Hcall.
  split; [reflexivity|].
  eexists. split; [reflexivity|]. apply contains_skip.
  rewrite <- (contains_here topic ""). f_equal.
  clear. induction topic as [|c t IH]; simpl; [reflexivity | now rewrite <- IH].
Qed.

Lemma no_videos_failure_witness :
  MarketAnalysisTool_call Fixture.externals (market_arguments "cooking" (Some 20))
  = [("success", VBool false);
     ("message", VStr "No videos found for topic: cooking")].
Proof.
  apply (no_videos_failure Fixture.externals
           (market_arguments "cooking" (Some 20))
           "2024-05-02T12:00:00Z"
           (mkDatetime 2024 5 2 12 0 0 0 (Some 0))
           (mkSearchResult
              (market_search_query "cooking" 20
                 (mkDatetime 2024 5 2 12 0 0 0 (Some 0)))
              [] 0));
    vm_compute; reflexivity.
Defined.

(* ================================================================== *)
(** * System status: credentials *)
(* ================================================================== *)

Lemma status_configuration (ext : Externals) (cfg : Config) (arguments : Arguments) :
  configuration_of (SystemStatusTool_call ext cfg arguments)
  = Some (VDict (configuration_block cfg)).
Proof.
  unfold SystemStatusTool_call, configuration_of.
  destruct (get_default (arg_include_detailed arguments) false); reflexivity.
Qed.

(** C9.  The configuration block of a status result holds, for each
    of the three credentials, only the boolean saying whether it is
    configured, next to the output directory and the maximal search size;
    and the whole result is the same for two configurations whose
    credentials agree on being configured or not, whatever their values. *)
Theorem status_hides_credentials
    (ext : Externals) (cfg cfg' : Config) (arguments : Arguments) :
  same_truthiness cfg cfg' ->
  configuration_of (SystemStatusTool_call ext cfg arguments)
    = Some (VDict
              [("youtube_api_configured", VBool (configured (YOUTUBE_API_KEY cfg)));
               ("firebase_configured", VBool (configured (FIREBASE_PROJECT_ID cfg)));
               ("claude_api_configured", VBool (configured (ANTHROPIC_API_KEY cfg)));
               ("output_directory", VStr (OUTPUT_DIR cfg));
               ("max_videos_per_search", VInt 50)])
  /\ SystemStatusTool_call ext cfg arguments
     = SystemStatusTool_call ext cfg' arguments.
Proof.
  intros (Hyt & Hfb & Hcl & Hdir).
  split; [apply status_configuration|].
  unfold SystemStatusTool_call, configuration_block, _check_api_status,
    configured_label.
  now rewrite Hyt, Hfb, Hcl, Hdir.
Qed.

Lemma status_hides_credentials_witness :
  SystemStatusTool_call Fixture.externals
    (mkConfig (Some "AIza-one") (Some "project-a") None "/srv/app/output")
    (mkArguments None None None None None None None None (Some true))
  = SystemStatusTool_call Fixture.externals
      (mkConfig (Some "AIza-two") (Some "project-b") (Some "") "/srv/app/output")
      (mkArguments None None None None None None None None (Some true)).
Proof.
  apply (status_hides_credentials Fixture.externals
           (mkConfig (Some "AIza-one") (Some "project-a") None "/srv/app/output")
           (mkConfig (Some "AIza-two") (Some "project-b") (Some "") "/srv/app/output")).
  repeat split.
Defined.

(* ================================================================== *)
(** * Market analysis: the sample size *)
(* ================================================================== *)

Section SampleSize.

Variable ext : Externals.
Hypothesis Hmax : honours_maxResults ext.
Hypothesis Hone : one_item_per_id ext.

Lemma fetch_video_batch_length (ids : list string) :
  (List.length (_fetch_video_batch ext ids) <= List.length ids)%nat.
Proof.
  unfold _fetch_video_batch.
  destruct (videos_list_execute ext ids) as [fetched|e] eqn:E; simpl; [|lia].
  pose proof (parse_items_length ext fetched).
  pose proof (Hone ids fetched E). lia.
Qed.

Lemma batches_step (fuel : nat) (id : string) (ids : list string) :
  batches (S fuel) (id :: ids)
  = firstn 50 (id :: ids) :: batches fuel (skipn 50 (id :: ids)).
Proof. reflexivity. Qed.

Lemma batches_length (fuel : nat) (ids : list string) :
  (List.length (flat_map (_fetch_video_batch ext) (batches fuel ids))
   <= List.length ids)%nat.
Proof.
  revert ids. induction fuel as [|fuel IH]; intros ids; [simpl; lia|].
  destruct ids as [|id ids]; [simpl; lia|].
  rewrite batches_step.
  generalize (id :: ids). intros l.
  cbn [flat_map]. rewrite length_app.
  pose proof (fetch_video_batch_length (firstn 50 l)).
  pose proof (IH (skipn 50 l)).
  rewrite <- (firstn_skipn 50 l) at 3. rewrite length_app. lia.
Qed.

Lemma get_video_details_length (ids : list string) :
  (List.length (_get_video_details ext ids) <= List.length ids)%nat.
Proof.
  unfold _get_video_details. destruct ids; [simpl; lia|]. apply batches_length.
Qed.

Lemma video_ids_of_length (raw : list (option string)) (ids : list string) :
  video_ids_of raw = Ok ids -> List.length ids = List.length raw.
Proof.
  revert ids. induction raw as [|[id|] raw IH]; simpl; intros ids H.
  - now injection H as <-.
  - destruct (video_ids_of raw) as [ids'|]; simpl in H; [|discriminate].
    injection H as <-. simpl. now rewrite (IH ids').
  - discriminate.
Qed.

Lemma search_videos_length (sq : SearchQuery) (results : SearchResult) :
  search_videos ext sq = Ok results ->
  Z.of_nat (List.length (videos results)) <= Z.max 0 (Z.min (max_results sq) 50).
Proof.
  unfold search_videos. intros H.
  apply bind_Ok in H as (response & Hresp & H).
  apply bind_Ok in H as (ids & Hids & H).
  injection H as <-. simpl.
  pose proof (get_video_details_length ids).
  pose proof (video_ids_of_length _ _ Hids).
  pose proof (Hmax _ _ Hresp) as Hcap. simpl in Hcap. lia.
Qed.

End SampleSize.

(** The slices of [_get_video_details] cover the ids: the loop bound of
    the model is large enough. *)
Lemma batches_cover (fuel : nat) (ids : list string) :
  (List.length ids <= fuel)%nat -> List.concat (batches fuel ids) = ids.
Proof.
  revert ids. induction fuel as [|fuel IH]; intros ids Hlen.
  - destruct ids; [reflexivity | simpl in Hlen; lia].
  - destruct ids as [|id ids]; [reflexivity|].
    rewrite batches_step. cbn [List.concat].
    rewrite IH; [apply firstn_skipn|].
    rewrite length_skipn. simpl in *. lia.
Qed.

(** C10.  A market-analysis call accepts a sample size of up to 100
    (the query carries min(requested, 100)), but the search request caps
    maxResults at 50; with a provider that returns at most maxResults
    search items and at most one detail record per id, at most 50 videos
    are fetched and analyzed, whatever sample size was requested. *)
Theorem market_sample_capped (ext : Externals) (arguments : Arguments) :
  honours_maxResults ext ->
  one_item_per_id ext ->
  let sample_size := Z.min (get_default (arg_sample_size arguments) 50) 100 in
  sample_size <= 100
  /\ (forall topic published_after,
        let search_query := market_search_query topic sample_size published_after in
        max_results search_query = sample_size
        /\ maxResults (search_params_of ext search_query) = Z.min sample_size 50
        /\ maxResults (search_params_of ext search_query) <= 50
        /\ (forall results,
              search_videos ext search_query = Ok results ->
              (List.length (videos results) <= 50)%nat))
  /\ (forall n,
        lookup "videos_analyzed" (MarketAnalysisTool_call ext arguments)
          = Some (VInt n) ->
        n <= 50).
Proof.
  intros Hmax Hone sample_size.
  assert (Hfetched : forall sq results,
             search_videos ext sq = Ok results ->
             (List.length (videos results) <= 50)%nat).
  { intros sq results H.
    pose proof (search_videos_length ext Hmax Hone sq results H). lia. }
  split; [subst sample_size; lia|]. split.
  - intros topic published_after search_query.
    split; [reflexivity|]. split; [reflexivity|].
    split; [simpl; lia|]. apply Hfetched.
  - intros n. unfold MarketAnalysisTool_call. fold sample_size.
    destruct (_format_youtube_timestamp ext _) as [stamp|]; simpl; [|discriminate].
    destruct (validate_datetime ext stamp) as [published_after|]; simpl;
      [|discriminate].
    destruct (search_videos ext _) as [results|] eqn:Hsearch; simpl;
      [|discriminate].
    pose proof (Hfetched _ _ Hsearch) as Hlen.
    destruct (videos results) as [|video rest]; simpl; [discriminate|].
    intros [= <-]. simpl in Hlen. lia.
Qed.

Lemma fixture_honours_maxResults : honours_maxResults Fixture.externals.
Proof.
  intros p r.
  change (search_list_execute Fixture.externals p) with (Fixture.search_catalog p).
  unfold Fixture.search_catalog.
  destruct (contains "python" (lower (q p))); intros [= <-]; cbn [items].
  - etransitivity; [apply Nat2Z.inj_le, firstn_le_length | lia].
  - simpl. lia.
Qed.

Lemma flat_map_at_most_one {A B : Type} (f : A -> list B) (l : list A) :
  (forall a, (List.length (f a) <= 1)%nat) ->
  (List.length (flat_map f l) <= List.length l)%nat.
Proof.
  intros Hf. induction l as [|a l IH]; [simpl; lia|].
  cbn [flat_map]. rewrite length_app. pose proof (Hf a). simpl. lia.
Qed.

Lemma fetch_one_length (id : string) : (List.length (Fixture.fetch_one id) <= 1)%nat.
Proof.
  unfold Fixture.fetch_one.
  generalize (Fixture.find_item id Fixture.catalog).
  intros [item|]; cbn [List.length]; lia.
Qed.

Lemma fixture_one_item_per_id : one_item_per_id Fixture.externals.
Proof.
  intros ids fetched H.
  assert (E : fetched = flat_map Fixture.fetch_one ids)
    by (symmetry; injection H; auto).
  rewrite E. apply flat_map_at_most_one, fetch_one_length.
Qed.

Lemma market_sample_capped_witness :
  max_results (market_search_query "python" 100 Fixture.now) = 100
  /\ maxResults (search_params_of Fixture.externals
                   (market_search_query "python" 100 Fixture.now)) = 50
  /\ lookup "videos_analyzed"
       (MarketAnalysisTool_call Fixture.externals
          (market_arguments "python" (Some 250)))
     = Some (VInt 2).
Proof.
  destruct (market_sample_capped Fixture.externals
              (market_arguments "python" (Some 250))
              fixture_honours_maxResults fixture_one_item_per_id)
    as (_ & Hquery & _).
  destruct (Hquery "python" Fixture.now) as (Hsize & Hcap & _).
  split; [exact Hsize|]. split; [exact Hcap|].
  vm_compute. reflexivity.
Defined.

(* ================================================================== *)
(** * Handler results *)
(* ================================================================== *)

(** An upstream failure of the search becomes a structured failure of
    the market-analysis handler. *)
Lemma market_search_fault
    (ext : Externals) (arguments : Arguments)
    (stamp : string) (published_after : datetime) (e : string) :
  _format_youtube_timestamp ext (get_default (arg_timeframe_days arguments) 30)
    = Ok stamp ->
  validate_datetime ext stamp = Ok published_after ->
  search_videos ext
    (market_search_query (get_default (arg_topic arguments) "")
       (Z.min (get_default (arg_sample_size arguments) 50) 100) published_after)
    = Raise e ->
  MarketAnalysisTool_call ext arguments
  = [("success", VBool false);
     ("error", VStr e);
     ("message", VStr "Failed to analyze market")].
Proof.
  intros Hstamp Hvalid Hsearch. unfold MarketAnalysisTool_call.
  rewrite Hstamp. simpl. rewrite Hvalid. simpl. rewrite Hsearch. reflexivity.
Qed.

(** Every result of a registered handler carries a boolean [success], and a
    string [message] when [success] is [False]. *)
Lemma handler_result_shape
    (ext : Externals) (cfg : Config) (tool_name : string) (t : ToolInstance)
    (arguments : Arguments) (result_ : dict) :
  find_tool (youtube_tools ext cfg) tool_name = Some t ->
  call t arguments = Ok result_ ->
  exists success,
    lookup "success" result_ = Some (VBool success)
    /\ (success = false ->
        exists message, lookup "message" result_ = Some (VStr message)).
Proof.
  unfold youtube_tools, find_tool.
  destruct (String.eqb _ tool_name); [intros [= <-] [= <-]|].
  { unfold VideoSearchTool_call.
    destruct (arg_published_after_days arguments) as [days|]; simpl.
    - destruct (_format_youtube_timestamp ext days) as [stamp|]; simpl;
        [|exists false; eauto].
      destruct (validate_datetime ext stamp); simpl; [|exists false; eauto].
      destruct (search_videos ext _); simpl; [exists true | exists false];
        split; eauto; discriminate.
    - destruct (search_videos ext _); simpl; [exists true | exists false];
        split; eauto; discriminate. }
  destruct (String.eqb _ tool_name); [intros [= <-] [= <-]|].
  { unfold MarketAnalysisTool_call.
    destruct (_format_youtube_timestamp ext _) as [stamp|]; simpl;
      [|exists false; eauto].
    destruct (validate_datetime ext stamp); simpl; [|exists false; eauto].
    destruct (search_videos ext _) as [results|]; simpl; [|exists false; eauto].
    destruct (videos results); simpl; [exists false; eauto|].
    exists true. split; [reflexivity | discriminate]. }
  destruct (String.eqb _ tool_name); [intros [= <-] [= <-]|discriminate].
  unfold SystemStatusTool_call. simpl.
  exists true. split; [reflexivity | discriminate].
Qed.

(** So a call to a registered tool is answered by the formatted result or
    by "Tool execution failed: " followed by the handler's message. *)
Lemma registered_call_text
    (ext : Externals) (cfg : Config) (display : Display)
    (tool_name : string) (t : ToolInstance) (arguments : Arguments) :
  find_tool (youtube_tools ext cfg) tool_name = Some t ->
  exists result_,
    call t arguments = Ok result_
    /\ (call_tool ext cfg display true tool_name arguments
          = text_content (format_tool_response display tool_name result_)
        \/ exists message,
             lookup "message" result_ = Some (VStr message)
             /\ call_tool ext cfg display true tool_name arguments
                = text_content ("Tool execution failed: " ++ message)).
Proof.
  intros Hfind.
  destruct (registered_handlers_return ext cfg tool_name t arguments Hfind)
    as (result_ & Hcall).
  exists result_. split; [exact Hcall|].
  destruct (handler_result_shape ext cfg tool_name t arguments result_ Hfind Hcall)
    as (success & Hsuccess & Hmessage).
  unfold call_tool.
  rewrite (call_tool_handled display _ tool_name arguments t Hfind), Hcall.
  unfold dict_get. rewrite Hsuccess. simpl.
  destruct success; [now left|].
  destruct (Hmessage eq_refl) as (message & Hm).
  right. exists message. split; [exact Hm|]. now rewrite Hm.
Qed.

(** [average_engagement] of an empty result is exactly 0. *)
Lemma average_engagement_empty (sq : SearchQuery) (total : Z) :
  average_engagement (mkSearchResult sq [] total) = 0%Q.
Proof. reflexivity. Qed.

(** A record with 1000 views, 50 likes and 10 comments: rate 0.06, shown as
    "6.00%". *)
Lemma engagement_rate_percent :
  (engagement_rate (mkVideoStats 1000 50 10 0) == 6 # 100)%Q
  /\ Fixture.percent2 (engagement_rate (mkVideoStats 1000 50 10 0)) = "6.00%".
Proof. split; vm_compute; reflexivity. Qed.

(* ================================================================== *)
(** * Configuration and start-up *)
(* ================================================================== *)

Lemma validate_config_missing (cfg : Config) :
  validate_config cfg
  = match missing_vars_of cfg with
    | [] => Ok true
    | _ => Raise ("Missing required environment variables: "
                  ++ join ", " (missing_vars_of cfg))
    end.
Proof. reflexivity. Qed.

(** X1.  [validate_config] returns [True] exactly when the three
    credentials are set and non-empty; otherwise it raises, and the message
    names exactly the variables that are unset or empty, in the order
    YouTube, Firebase, Anthropic.  It never returns [False]. *)
Theorem validate_config_names_missing (cfg : Config) :
  (validate_config cfg = Ok true
   <-> configured (YOUTUBE_API_KEY cfg) = true
       /\ configured (FIREBASE_PROJECT_ID cfg) = true
       /\ configured (ANTHROPIC_API_KEY cfg) = true)
  /\ validate_config cfg <> Ok false
  /\ (validate_config cfg <> Ok true ->
      validate_config cfg
      = Raise ("Missing required environment variables: "
               ++ join ", " (missing_vars_of cfg)))
  /\ (In "YOUTUBE_API_KEY" (missing_vars_of cfg)
        <-> configured (YOUTUBE_API_KEY cfg) = false)
  /\ (In "FIREBASE_PROJECT_ID" (missing_vars_of cfg)
        <-> configured (FIREBASE_PROJECT_ID cfg) = false)
  /\ (In "ANTHROPIC_API_KEY" (missing_vars_of cfg)
        <-> configured (ANTHROPIC_API_KEY cfg) = false)
  /\ subsequence (missing_vars_of cfg)
       ["YOUTUBE_API_KEY"; "FIREBASE_PROJECT_ID"; "ANTHROPIC_API_KEY"].
Proof.
  rewrite validate_config_missing. unfold missing_vars_of. cbn [filter snd].
  destruct (configured (YOUTUBE_API_KEY cfg));
    destruct (configured (FIREBASE_PROJECT_ID cfg));
    destruct (configured (ANTHROPIC_API_KEY cfg));
    cbn [negb map fst In];
    (repeat split);
    try discriminate; try reflexivity; try tauto;
    try (intros H; exfalso; now apply H);
    try (intros [H|H]; try discriminate H;
         repeat (destruct H as [H|H]; try discriminate H); tauto);
    try (intros (H1 & H2 & H3); discriminate);
    repeat (first [apply subsequence_keep | apply subsequence_skip
                  | apply subsequence_nil]).
Qed.

Lemma validate_config_names_missing_witness :
  validate_config (mkConfig (Some "AIza-key") (Some "") None "/srv/app/output")
  = Raise "Missing required environment variables: FIREBASE_PROJECT_ID, ANTHROPIC_API_KEY".
Proof.
  destruct (validate_config_names_missing
              (mkConfig (Some "AIza-key") (Some "") None "/srv/app/output"))
    as (_ & _ & Hraise & _).
  rewrite Hraise; [reflexivity | discriminate].
Defined.

(** X2.  Start-up gate: running [initialize_server] on an
    uninitialized server sets the flag exactly when the three credentials
    are configured, and it never clears a flag that is set.  While the flag
    is unset, the server lists no tool and rejects every call, whatever the
    tool name. *)
Theorem initialization_gate
    (ext : Externals) (cfg : Config) (display : Display)
    (tool_name : string) (arguments : Arguments) :
  (flag_after cfg false = true
   <-> configured (YOUTUBE_API_KEY cfg) = true
       /\ configured (FIREBASE_PROJECT_ID cfg) = true
       /\ configured (ANTHROPIC_API_KEY cfg) = true)
  /\ flag_after cfg true = true
  /\ (flag_after cfg false = false ->
      list_tools ext cfg (flag_after cfg false) = []
      /\ call_tool ext cfg display (flag_after cfg false) tool_name arguments
         = text_content
             "Error: Server not yet initialized. Please wait for initialization to complete.").
Proof.
  split; [|split].
  - rewrite <- (initialize_server_configured cfg false).
    unfold flag_after. destruct (initialize_server cfg false) as [[]|e];
      split; intros H; try discriminate; try reflexivity.
  - unfold flag_after, initialize_server.
    now destruct (validate_config cfg).
  - intros ->. split; reflexivity.
Qed.

Lemma initialization_gate_witness :
  call_tool Fixture.externals Fixture.config Fixture.display
    (flag_after Fixture.config false) "system_status" no_arguments
  = text_content
      "Error: Server not yet initialized. Please wait for initialization to complete.".
Proof.
  destruct (initialization_gate Fixture.externals Fixture.config Fixture.display
              "system_status" no_arguments) as (_ & _ & Hclosed).
  apply Hclosed. reflexivity.
Defined.

(** X3.  The names [list_tools] advertises are exactly the names
    [call_tool] dispatches: every listed name finds a handler whose own
    name it is, and every name that finds a handler is listed. *)
Theorem listed_tools_are_callable
    (ext : Externals) (cfg : Config) (wanted : string) :
  In wanted (map tool_name (list_tools ext cfg true))
  <-> exists t, find_tool (youtube_tools ext cfg) wanted = Some t
                /\ name t = wanted.
Proof.
  split.
  - intros Hin. change (map tool_name (list_tools ext cfg true))
      with ["search_videos"; "analyze_market"; "system_status"] in Hin.
    simpl in Hin. destruct Hin as [<-|[<-|[<-|[]]]]; eexists; split; reflexivity.
  - intros (t & Hfind & _). apply find_tool_Some in Hfind. exact Hfind.
Qed.

(** X4.  A handler result that lacks the key [success] is treated
    as a failure, and one that lacks [message] as well is reported as
    "Tool execution failed: Unknown error". *)
Theorem result_without_success_is_failure
    (display : Display) (tools : list (string * ToolInstance))
    (tool_name : string) (arguments : Arguments)
    (t : ToolInstance) (result_ : dict) :
  find_tool tools tool_name = Some t ->
  call t arguments = Ok result_ ->
  lookup "success" result_ = None ->
  call_tool_in display tools true tool_name arguments
  = text_content
      ("Tool execution failed: "
       ++ match lookup "message" result_ with
          | Some message => str_value display message
          | None => "Unknown error"
          end)
  /\ (lookup "message" result_ = None ->
      call_tool_in display tools true tool_name arguments
      = text_content "Tool execution failed: Unknown error").
Proof.
  intros Hfind Hcall Hmissing.
  rewrite (call_tool_handled display tools tool_name arguments t Hfind), Hcall.
  unfold dict_get. rewrite Hmissing. simpl.
  split; [now destruct (lookup "message" result_)|].
  now intros ->.
Qed.

Lemma result_without_success_is_failure_witness :
  call_tool_in Fixture.display
    [("bare", mkToolInstance "bare" "" (VDict [])
                (fun _ => Ok [("data", VInt 1)]))]
    true "bare" no_arguments
  = text_content "Tool execution failed: Unknown error".
Proof.
  apply (result_without_success_is_failure Fixture.display
           [("bare", mkToolInstance "bare" "" (VDict [])
                       (fun _ => Ok [("data", VInt 1)]))]
           "bare" no_arguments _ [("data", VInt 1)] eq_refl eq_refl eq_refl).
  reflexivity.
Defined.

(** A display template that raises does not fail the call: the
    text falls back to the raw result, for each of the three registered
    names; any other name gets the generic "Results from" text.  So
    [format_tool_response] never raises. *)
Theorem formatting_failure_is_downgraded
    (display : Display) (tool_name : string) (result_ : dict) (e : string) :
  (if String.eqb tool_name "search_videos"
   then format_video_search_response display result_
   else if String.eqb tool_name "analyze_market"
   then format_market_analysis_response display result_
   else format_system_status_response display result_) = Raise e ->
  In tool_name ["search_videos"; "analyze_market"; "system_status"] ->
  format_tool_response display tool_name result_
  = "Tool executed successfully but response formatting failed: "
    ++ str_other display (VDict result_).
Proof.
  intros Hraise Hin. unfold format_tool_response.
  simpl in Hin. destruct Hin as [<-|[<-|[<-|[]]]]; simpl in *;
    rewrite Hraise; reflexivity.
Qed.

Lemma formatting_failure_is_downgraded_witness :
  format_tool_response
    (mkDisplay (fun _ => Raise "'title'") (fun _ => Ok "") (fun _ => Ok "")
               (fun _ => "{...}"))
    "search_videos" [("success", VBool true)]
  = "Tool executed successfully but response formatting failed: {...}".
Proof.
  apply (formatting_failure_is_downgraded
           (mkDisplay (fun _ => Raise "'title'") (fun _ => Ok "") (fun _ => Ok "")
                      (fun _ => "{...}"))
           "search_videos" [("success", VBool true)] "'title'" eq_refl).
  simpl. auto.
Defined.

(* ================================================================== *)
(** * The normalizer, field by field *)
(* ================================================================== *)

Section NormalizerFields.

Variable ext : Externals.

(** What a successful normalization says about the raw record. *)
Lemma parse_video_item_inv (item : RawItem) (video : VideoData) :
  _parse_video_item ext item = Some video ->
  exists snip published,
    snippet item = Some snip
    /\ raw_id item = Some (video_id video)
    /\ raw_title snip = Some (title video)
    /\ raw_channelId snip = Some (channel_id video)
    /\ raw_channelTitle snip = Some (channel_title video)
    /\ raw_publishedAt snip = Some published
    /\ fromisoformat ext (replace_char "Z" "+00:00" published)
       = Ok (published_at video)
    /\ description video = get_default (raw_description snip) ""
    /\ tags video = get_default (raw_tags snip) []
    /\ thumbnail_url video
       = url (get_default
                (high (get_default (raw_thumbnails snip) (mkRawThumbnails None)))
                (mkRawThumbnail None))
    /\ duration video = duration_str_of item
    /\ parse_duration ext (duration_str_of item)
       = Ok (duration_seconds (stats video))
    /\ int_stat ext
         (viewCount (get_default (statistics item) (mkRawStatistics None None None)))
       = Ok (view_count (stats video))
    /\ int_stat ext
         (likeCount (get_default (statistics item) (mkRawStatistics None None None)))
       = Ok (like_count (stats video))
    /\ int_stat ext
         (commentCount (get_default (statistics item) (mkRawStatistics None None None)))
       = Ok (comment_count (stats video)).
Proof.
  unfold _parse_video_item, _parse_video_item_body, duration_str_of.
  destruct (snippet item) as [snip|]; simpl; [|discriminate].
  destruct (parse_duration ext _) as [secs|]; simpl; [|discriminate].
  destruct (int_stat ext (viewCount _)) as [views|]; simpl; [|discriminate].
  destruct (int_stat ext (likeCount _)) as [likes|]; simpl; [|discriminate].
  destruct (int_stat ext (commentCount _)) as [comments|]; simpl; [|discriminate].
  destruct (raw_publishedAt snip) as [published|] eqn:Hpub; simpl; [|discriminate].
  destruct (fromisoformat ext _) as [instant|] eqn:Hdate; simpl; [|discriminate].
  destruct (raw_id item) as [id|]; simpl; [|discriminate].
  destruct (raw_title snip) as [ttl|] eqn:Httl; simpl; [|discriminate].
  destruct (raw_channelId snip) as [cid|] eqn:Hcid; simpl; [|discriminate].
  destruct (raw_channelTitle snip) as [ctitle|] eqn:Hctitle; simpl; [|discriminate].
  intros [= <-]. exists snip, published. simpl.
  repeat split; try reflexivity; assumption.
Qed.

Lemma parse_video_item_category (item : RawItem) (video : VideoData) :
  _parse_video_item ext item = Some video ->
  category video = _categorize_video (title video) (description video).
Proof.
  unfold _parse_video_item, _parse_video_item_body.
  destruct (snippet item) as [snip|]; simpl; [|discriminate].
  destruct (parse_duration ext _); simpl; [|discriminate].
  destruct (int_stat ext _); simpl; [|discriminate].
  destruct (int_stat ext _); simpl; [|discriminate].
  destruct (int_stat ext _); simpl; [|discriminate].
  destruct (raw_publishedAt snip); simpl; [|discriminate].
  destruct (fromisoformat ext _); simpl; [|discriminate].
  destruct (raw_id item); simpl; [|discriminate].
  destruct (raw_title snip); simpl; [|discriminate].
  destruct (raw_channelId snip); simpl; [|discriminate].
  destruct (raw_channelTitle snip); simpl; [|discriminate].
  intros [= <-]. reflexivity.
Qed.

Lemma missing_key_None (item : RawItem) :
  has_required_keys item = false -> _parse_video_item ext item = None.
Proof.
  unfold has_required_keys, _parse_video_item, _parse_video_item_body.
  destruct (snippet item) as [snip|]; simpl; [|reflexivity].
  destruct (parse_duration ext _); simpl; [|reflexivity].
  destruct (int_stat ext _); simpl; [|reflexivity].
  destruct (int_stat ext _); simpl; [|reflexivity].
  destruct (int_stat ext _); simpl; [|reflexivity].
  destruct (raw_publishedAt snip); simpl;
    [|destruct (raw_id item), (raw_title snip), (raw_channelId snip),
        (raw_channelTitle snip); reflexivity].
  destruct (fromisoformat ext _); simpl; [|reflexivity].
  destruct (raw_id item); simpl; [|reflexivity].
  destruct (raw_title snip); simpl; [|reflexivity].
  destruct (raw_channelId snip); simpl; [|reflexivity].
  destruct (raw_channelTitle snip); simpl; [discriminate | reflexivity].
Qed.

Lemma parse_items_In (items : list RawItem) (video : VideoData) :
  In video (parse_items ext items)
  <-> exists item, In item items /\ _parse_video_item ext item = Some video.
Proof.
  induction items as [|item items IH]; simpl.
  - split; [tauto | intros (item & [] & _)].
  - destruct (_parse_video_item ext item) as [parsed|] eqn:Hparse; simpl.
    + rewrite IH. split.
      * intros [<-|(item' & Hin & Hp)]; [exists item; auto | exists item'; auto].
      * intros (item' & [<-|Hin] & Hp);
          [left; congruence | right; exists item'; auto].
    + rewrite IH. split.
      * intros (item' & Hin & Hp). exists item'. auto.
      * intros (item' & [<-|Hin] & Hp); [congruence | exists item'; auto].
Qed.

Lemma parse_items_subsequence (items : list RawItem) :
  subsequence (map (fun video => Some (video_id video)) (parse_items ext items))
              (map raw_id items).
Proof.
  induction items as [|item items IH]; simpl; [constructor|].
  destruct (_parse_video_item ext item) as [video|] eqn:Hparse; simpl.
  - destruct (parse_video_item_inv item video Hparse)
      as (snip & published & _ & Hid & _).
    rewrite Hid. now constructor.
  - now constructor.
Qed.

End NormalizerFields.

(** X6.  [_get_video_details] fetches the ids in consecutive
    slices of at most 50, none empty, that together are the id list in
    order; a list of at most 50 ids is fetched in one request, and the
    empty list gives no video. *)
Theorem video_details_batches (ext : Externals) (video_ids : list string) :
  (exists slices,
     List.concat slices = video_ids
     /\ Forall (fun slice => (1 <= List.length slice <= 50)%nat) slices
     /\ _get_video_details ext video_ids
        = flat_map (_fetch_video_batch ext) slices)
  /\ (video_ids <> [] -> (List.length video_ids <= 50)%nat ->
      _get_video_details ext video_ids = _fetch_video_batch ext video_ids)
  /\ _get_video_details ext [] = [].
Proof.
  assert (Hsizes : forall fuel ids,
             Forall (fun slice => (1 <= List.length slice <= 50)%nat)
                    (batches fuel ids)).
  { induction fuel as [|fuel IH]; intros ids; [constructor|].
    destruct ids as [|id ids]; [constructor|].
    rewrite batches_step. constructor; [|apply IH].
    rewrite length_firstn. simpl List.length. lia. }
  split; [|split; [|reflexivity]].
  - exists (batches (List.length video_ids) video_ids).
    split; [apply batches_cover; lia|]. split; [apply Hsizes|].
    unfold _get_video_details. now destruct video_ids.
  - intros Hne Hlen. destruct video_ids as [|id ids]; [now destruct Hne|].
    unfold _get_video_details. cbn [List.length]. rewrite batches_step.
    rewrite firstn_all2 by exact Hlen.
    rewrite skipn_all2 by exact Hlen.
    destruct (List.length ids); simpl; now rewrite app_nil_r.
Qed.

Lemma video_details_batches_witness :
  _get_video_details Fixture.externals ["v1"; "v2"; "v3"]
  = _fetch_video_batch Fixture.externals ["v1"; "v2"; "v3"].
Proof.
  apply (video_details_batches Fixture.externals ["v1"; "v2"; "v3"]).
  - discriminate.
  - simpl. lia.
Defined.

(** X7.  [_fetch_video_batch] invents nothing and keeps the
    provider's order: its videos are exactly the provider items that
    normalize, their ids form a subsequence of the ids of the response, and
    a provider failure gives the empty list. *)
Theorem fetch_video_batch_sound
    (ext : Externals) (video_ids : list string) :
  (forall fetched,
     videos_list_execute ext video_ids = Ok fetched ->
     (forall video,
        In video (_fetch_video_batch ext video_ids)
        <-> exists item, In item fetched /\ _parse_video_item ext item = Some video)
     /\ subsequence
          (map (fun video => Some (video_id video)) (_fetch_video_batch ext video_ids))
          (map raw_id fetched)
     /\ (List.length (_fetch_video_batch ext video_ids) <= List.length fetched)%nat)
  /\ (forall e,
        videos_list_execute ext video_ids = Raise e ->
        _fetch_video_batch ext video_ids = []).
Proof.
  split.
  - intros fetched Hresp. unfold _fetch_video_batch. rewrite Hresp. simpl.
    split; [intros video; apply parse_items_In|].
    split; [apply parse_items_subsequence | apply parse_items_length].
  - intros e Hresp. unfold _fetch_video_batch. now rewrite Hresp.
Qed.

Lemma fetch_video_batch_sound_witness :
  subsequence
    (map (fun video => Some (video_id video))
         (_fetch_video_batch Fixture.externals ["v1"; "v2"; "v3"]))
    [Some "v1"; Some "v2"; Some "v3"].
Proof.
  destruct (fetch_video_batch_sound Fixture.externals ["v1"; "v2"; "v3"])
    as (Hok & _).
  destruct (Hok [Fixture.item_v1; Fixture.item_v2; Fixture.item_v3] eq_refl)
    as (_ & Hsub & _).
  exact Hsub.
Defined.

(** X8.  A raw record that lacks one of the keys the normalizer
    subscripts (snippet, id, title, channelId, channelTitle, publishedAt)
    is dropped; a record that has them all and whose duration, counts and
    date parse is normalized. *)
Theorem required_keys_decide
    (ext : Externals) (item : RawItem) :
  (has_required_keys item = false -> _parse_video_item ext item = None)
  /\ (forall secs views likes comments snip published instant,
        has_required_keys item = true ->
        snippet item = Some snip ->
        raw_publishedAt snip = Some published ->
        parse_duration ext (duration_str_of item) = Ok secs ->
        int_stat ext
          (viewCount (get_default (statistics item) (mkRawStatistics None None None)))
          = Ok views ->
        int_stat ext
          (likeCount (get_default (statistics item) (mkRawStatistics None None None)))
          = Ok likes ->
        int_stat ext
          (commentCount (get_default (statistics item) (mkRawStatistics None None None)))
          = Ok comments ->
        fromisoformat ext (replace_char "Z" "+00:00" published) = Ok instant ->
        exists video,
          _parse_video_item ext item = Some video
          /\ stats video = mkVideoStats views likes comments secs
          /\ published_at video = instant).
Proof.
  split; [apply missing_key_None|].
  intros secs views likes comments snip published instant
         Hkeys Hsnip Hpub Hdur Hviews Hlikes Hcomments Hdate.
  unfold has_required_keys in Hkeys.
  unfold _parse_video_item, _parse_video_item_body.
  unfold duration_str_of in Hdur.
  rewrite Hsnip in *. simpl.
  rewrite Hdur. simpl. rewrite Hviews. simpl. rewrite Hlikes. simpl.
  rewrite Hcomments. simpl. rewrite Hpub in *. simpl. rewrite Hdate. simpl.
  destruct (raw_id item); [|discriminate].
  destruct (raw_title snip); [|discriminate].
  destruct (raw_channelId snip); [|discriminate].
  destruct (raw_channelTitle snip); [|discriminate].
  simpl. eexists. split; [reflexivity|]. split; reflexivity.
Qed.

Lemma required_keys_decide_witness :
  _parse_video_item Fixture.externals
    (mkRawItem None (snippet Fixture.item_v1) None None) = None.
Proof.
  apply (required_keys_decide Fixture.externals
           (mkRawItem None (snippet Fixture.item_v1) None None)).
  reflexivity.
Defined.

(** X9.  A normalized video carries the raw record's id, title,
    channel id and channel title, its description (empty when absent), its
    tags (none when absent) and its raw duration string; its
    [duration_seconds] is the parsed duration, and its category is the
    inference applied to its own title and description. *)
Theorem normalized_video_fields
    (ext : Externals) (item : RawItem) (video : VideoData) :
  _parse_video_item ext item = Some video ->
  raw_id item = Some (video_id video)
  /\ (exists snip,
        snippet item = Some snip
        /\ raw_title snip = Some (title video)
        /\ raw_channelId snip = Some (channel_id video)
        /\ raw_channelTitle snip = Some (channel_title video)
        /\ description video = get_default (raw_description snip) ""
        /\ tags video = get_default (raw_tags snip) [])
  /\ duration video = duration_str_of item
  /\ parse_duration ext (duration video) = Ok (duration_seconds (stats video))
  /\ category video = _categorize_video (title video) (description video).
Proof.
  intros Hparse.
  destruct (parse_video_item_inv ext item video Hparse)
    as (snip & published & Hsnip & Hid & Httl & Hcid & Hctitle & _ & _
        & Hdescr & Htags & _ & Hdur & Hsecs & _).
  split; [exact Hid|].
  split; [exists snip; repeat split; assumption|].
  split; [exact Hdur|].
  split; [now rewrite Hdur|].
  apply (parse_video_item_category ext item video Hparse).
Qed.

Lemma normalized_video_fields_witness :
  match _parse_video_item Fixture.externals Fixture.item_v3 with
  | Some video =>
      video_id video = "v3" /\ category video = EDUCATION
      /\ duration video = "PT1H"
  | None => False
  end.
Proof.
  destruct (_parse_video_item Fixture.externals Fixture.item_v3) as [video|] eqn:E;
    [|vm_compute in E; discriminate].
  destruct (normalized_video_fields Fixture.externals Fixture.item_v3 video E)
    as (Hid & (snip & Hsnip & Httl & _ & _ & Hdescr & _) & Hdur & _ & Hcat).
  injection Hid as Hid. injection Hsnip as <-. injection Httl as Httl.
  simpl in Hdescr. rewrite <- Httl, Hdescr in Hcat.
  repeat split; [now symmetry | exact Hcat | exact Hdur].
Defined.

(** X10.  A normalized record whose statistics carry no view count
    has [view_count = 0] and therefore engagement rate 0, whatever its
    likes and comments; a record without statistics has all three counts
    0. *)
Theorem absent_counts_are_zero
    (ext : Externals) (item : RawItem) (video : VideoData) :
  _parse_video_item ext item = Some video ->
  (viewCount (get_default (statistics item) (mkRawStatistics None None None)) = None ->
   view_count (stats video) = 0 /\ engagement_rate (stats video) = 0%Q)
  /\ (statistics item = None ->
      view_count (stats video) = 0
      /\ like_count (stats video) = 0
      /\ comment_count (stats video) = 0).
Proof.
  intros Hparse.
  destruct (parse_video_item_inv ext item video Hparse)
    as (snip & published & _ & _ & _ & _ & _ & _ & _ & _ & _ & _ & _ & _
        & Hviews & Hlikes & Hcomments).
  split.
  - intros Hnone. rewrite Hnone in Hviews. simpl in Hviews.
    injection Hviews as Hviews. split; [now symmetry|].
    unfold engagement_rate, engagement_rate_py. now rewrite <- Hviews.
  - intros Hnone. rewrite Hnone in *. simpl in *.
    injection Hviews as <-. injection Hlikes as <-. injection Hcomments as <-.
    repeat split.
Qed.

Lemma absent_counts_are_zero_witness :
  match _parse_video_item Fixture.externals
          (mkRawItem (Some "v9") (snippet Fixture.item_v1) None None) with
  | Some video => stats video = mkVideoStats 0 0 0 0
  | None => False
  end.
Proof.
  destruct (_parse_video_item Fixture.externals
              (mkRawItem (Some "v9") (snippet Fixture.item_v1) None None))
    as [video|] eqn:E; [|vm_compute in E; discriminate].
  destruct (absent_counts_are_zero Fixture.externals _ video E) as (_ & Hzero).
  destruct (Hzero eq_refl) as (Hv & Hl & Hc).
  destruct (parse_video_item_duration Fixture.externals _ video E) as (Hsecs & _).
  injection Hsecs as Hsecs.
  destruct (stats video) as [v l c d]. simpl in *. now subst.
Defined.

(* ================================================================== *)
(** * Search: failures and empty results *)
(* ================================================================== *)

Lemma video_ids_of_missing (raw : list (option string)) :
  In None raw -> video_ids_of raw = Raise "'videoId'".
Proof.
  induction raw as [|[id|] raw IH]; simpl.
  - intros [].
  - intros [H|H]; [discriminate|]. now rewrite (IH H).
  - reflexivity.
Qed.

Lemma video_ids_of_all (ids : list string) :
  video_ids_of (map Some ids) = Ok ids.
Proof. induction ids as [|id ids IH]; simpl; [reflexivity | now rewrite IH]. Qed.

Lemma flat_map_all_nil {A B : Type} (f : A -> list B) (l : list A) :
  (forall a, f a = []) -> flat_map f l = [].
Proof.
  intros Hf. induction l as [|a l IH]; simpl; [reflexivity|].
  now rewrite Hf, IH.
Qed.

Lemma details_down_no_videos (ext : Externals) (ids : list string) :
  details_down ext -> _get_video_details ext ids = [].
Proof.
  intros Hdown. unfold _get_video_details. destruct ids; [reflexivity|].
  apply flat_map_all_nil. intros slice. unfold _fetch_video_batch.
  destruct (Hdown slice) as (e & ->). reflexivity.
Qed.

(** X11.  [search_videos] does not absorb a failure of the search
    request: it raises the provider's exception; and a single search item
    without a [videoId] makes the whole search raise [KeyError], however
    many well-formed items surround it. *)
Theorem search_failure_propagates (ext : Externals) (sq : SearchQuery) :
  (forall e,
     search_list_execute ext (search_params_of ext sq) = Raise e ->
     search_videos ext sq = Raise e)
  /\ (forall response,
        search_list_execute ext (search_params_of ext sq) = Ok response ->
        In None (items response) ->
        search_videos ext sq = Raise "'videoId'").
Proof.
  split.
  - intros e H. unfold search_videos. now rewrite H.
  - intros response H Hin. unfold search_videos. rewrite H. simpl.
    now rewrite (video_ids_of_missing _ Hin).
Qed.

Lemma search_failure_propagates_witness :
  search_videos fixture_bad_search (market_search_query "python" 50 Fixture.now)
  = Raise "'videoId'"
  /\ search_videos fixture_search_down (market_search_query "python" 50 Fixture.now)
     = Raise "HttpError 403: quotaExceeded".
Proof.
  split.
  - eapply search_failure_propagates; [reflexivity|]. simpl. auto.
  - apply search_failure_propagates. reflexivity.
Defined.

(** X12.  A failure of the detail requests is absorbed: when every
    [videos.list] request fails, [search_videos] still succeeds, with no
    video and with the provider's [totalResults] (0 when the response has
    none). *)
Theorem detail_failure_is_absorbed
    (ext : Externals) (sq : SearchQuery) (response : SearchResponse)
    (ids : list string) :
  details_down ext ->
  search_list_execute ext (search_params_of ext sq) = Ok response ->
  items response = map Some ids ->
  search_videos ext sq
  = Ok (mkSearchResult sq [] (get_default (totalResults response) 0)).
Proof.
  intros Hdown Hresp Hitems. unfold search_videos.
  rewrite Hresp. simpl. rewrite Hitems, video_ids_of_all. simpl.
  now rewrite (details_down_no_videos ext ids Hdown).
Qed.

Lemma detail_failure_is_absorbed_witness :
  search_videos fixture_details_down (market_search_query "python" 50 Fixture.now)
  = Ok (mkSearchResult (market_search_query "python" 50 Fixture.now) [] 3).
Proof.
  apply (detail_failure_is_absorbed fixture_details_down
           (market_search_query "python" 50 Fixture.now)
           (mkSearchResponse [Some "v1"; Some "v2"; Some "v3"] (Some 3))
           ["v1"; "v2"; "v3"]).
  - intros ids. eexists. reflexivity.
  - vm_compute. reflexivity.
  - reflexivity.
Defined.

(* ================================================================== *)
(** * Handlers: what a result says *)
(* ================================================================== *)

Lemma search_tool_call_unfold (ext : Externals) (arguments : Arguments) :
  VideoSearchTool_call ext arguments
  = try_except
      (published_after <- published_after_of ext arguments ;;
       results <- search_videos ext (search_tool_query arguments published_after) ;;
       Ok [("success", VBool true);
           ("query", VStr (get_default (arg_query arguments) ""));
           ("total_results", VInt (total_results results));
           ("videos_found", VInt (Z.of_nat (List.length (videos results))));
           ("average_engagement",
              VStr (format_percent2 ext (average_engagement results)));
           ("search_parameters",
              VDict [("order", VStr (get_default (arg_order arguments) "relevance"));
                     ("region_code",
                        VStr (get_default (arg_region_code arguments) "US"));
                     ("max_results",
                        VInt (Z.min (get_default (arg_max_results arguments) 10) 50));
                     ("published_after_days",
                        value_of_option_int (arg_published_after_days arguments))]);
           ("videos", VList (map (video_data_of ext) (videos results)))])
      (fun e =>
         [("success", VBool false);
          ("error", VStr e);
          ("message", VStr "Failed to search videos")]).
Proof. reflexivity. Qed.

Lemma market_call_unfold (ext : Externals) (arguments : Arguments) :
  MarketAnalysisTool_call ext arguments
  = try_except
      (published_after <- market_published_after ext arguments ;;
       results <- search_videos ext (market_query_of arguments published_after) ;;
       match videos results with
       | [] =>
           Ok [("success", VBool false);
               ("message",
                  VStr ("No videos found for topic: "
                        ++ get_default (arg_topic arguments) ""))]
       | _ =>
           Ok [("success", VBool true);
               ("topic", VStr (get_default (arg_topic arguments) ""));
               ("timeframe_days",
                  VInt (get_default (arg_timeframe_days arguments) 30));
               ("videos_analyzed",
                  VInt (Z.of_nat (List.length (videos results))));
               ("analysis",
                  VDict (_analyze_market_data ext (videos results)
                           (get_default (arg_topic arguments) "")))]
       end)
      (fun e =>
         [("success", VBool false);
          ("error", VStr e);
          ("message", VStr "Failed to analyze market")]).
Proof.
  unfold MarketAnalysisTool_call, market_published_after, market_query_of.
  destruct (_format_youtube_timestamp ext _); simpl; [|reflexivity].
  destruct (validate_datetime ext _); reflexivity.
Qed.

(** X13.  Because detail failures are absorbed, a market analysis
    run while every [videos.list] request fails reports "No videos found
    for topic: ..." and not an upstream failure, even when the search
    itself found videos. *)
Theorem market_masks_detail_failure
    (ext : Externals) (arguments : Arguments) (published_after : datetime)
    (response : SearchResponse) (ids : list string) :
  details_down ext ->
  market_published_after ext arguments = Ok published_after ->
  search_list_execute ext
    (search_params_of ext (market_query_of arguments published_after))
    = Ok response ->
  items response = map Some ids ->
  MarketAnalysisTool_call ext arguments
  = [("success", VBool false);
     ("message",
        VStr ("No videos found for topic: " ++ get_default (arg_topic arguments) ""))].
Proof.
  intros Hdown Hdate Hresp Hitems.
  rewrite market_call_unfold, Hdate. simpl.
  unfold search_videos. rewrite Hresp. simpl.
  rewrite Hitems, video_ids_of_all. simpl.
  now rewrite (details_down_no_videos ext ids Hdown).
Qed.

Lemma market_masks_detail_failure_witness :
  MarketAnalysisTool_call fixture_details_down (market_arguments "python" None)
  = [("success", VBool false);
     ("message", VStr "No videos found for topic: python")].
Proof.
  apply (market_masks_detail_failure fixture_details_down
           (market_arguments "python" None)
           (mkDatetime 2024 5 2 12 0 0 0 (Some 0))
           (mkSearchResponse [Some "v1"; Some "v2"; Some "v3"] (Some 3))
           ["v1"; "v2"; "v3"]).
  - intros ids. eexists. reflexivity.
  - vm_compute. reflexivity.
  - vm_compute. reflexivity.
  - reflexivity.
Defined.

(** X14.  A video search succeeds exactly when its date filter and
    the search go through; the result then counts every video returned
    ([videos_found] is the length of [videos]), passes on the provider's
    [total_results], and was asked with at most 50 results (10 when the
    argument is absent). *)
Theorem search_tool_success
    (ext : Externals) (arguments : Arguments) :
  (lookup "success" (VideoSearchTool_call ext arguments) = Some (VBool true)
   <-> exists published_after results,
         published_after_of ext arguments = Ok published_after
         /\ search_videos ext (search_tool_query arguments published_after)
            = Ok results)
  /\ (forall published_after results,
        published_after_of ext arguments = Ok published_after ->
        search_videos ext (search_tool_query arguments published_after)
          = Ok results ->
        lookup "videos_found" (VideoSearchTool_call ext arguments)
          = Some (VInt (Z.of_nat (List.length (videos results))))
        /\ lookup "videos" (VideoSearchTool_call ext arguments)
           = Some (VList (map (video_data_of ext) (videos results)))
        /\ lookup "total_results" (VideoSearchTool_call ext arguments)
           = Some (VInt (total_results results)))
  /\ (forall published_after,
        max_results (search_tool_query arguments published_after) <= 50
        /\ (arg_max_results arguments = None ->
            max_results (search_tool_query arguments published_after) = 10)).
Proof.
  rewrite search_tool_call_unfold.
  split; [|split].
  - destruct (published_after_of ext arguments) as [pa|e]; simpl.
    + destruct (search_videos ext _) as [results|e] eqn:Hs; simpl.
      * split; [intros _; exists pa, results; auto | reflexivity].
      * split; [discriminate|].
        intros (pa' & results & [= <-] & H). congruence.
    + split; [discriminate | intros (pa & results & H & _); discriminate].
  - intros pa results -> Hs. simpl. rewrite Hs. simpl. repeat split.
  - intros pa. simpl. split; [lia | now intros ->].
Qed.

Lemma search_tool_success_witness :
  lookup "videos_found"
    (VideoSearchTool_call Fixture.externals
       (mkArguments (Some "python") (Some 200) None None None None None None None))
  = Some (VInt 2).
Proof.
  destruct (search_tool_success Fixture.externals
              (mkArguments (Some "python") (Some 200) None None None None None
                           None None)) as (_ & Hcount & _).
  destruct (search_videos Fixture.externals
              (search_tool_query
                 (mkArguments (Some "python") (Some 200) None None None None None
                              None None) None)) as [results|e] eqn:E;
    [|vm_compute in E; discriminate].
  destruct (Hcount None results eq_refl E) as (Hfound & _).
  rewrite Hfound. vm_compute in E. injection E as <-. reflexivity.
Defined.

(** X15.  Unlike the market analysis, a video search whose result
    set is empty succeeds: [success] is [True], [videos_found] is 0, the
    list of videos is empty and the average engagement is the formatted
    0. *)
Theorem search_tool_empty_result
    (ext : Externals) (arguments : Arguments)
    (published_after : option datetime) (results : SearchResult) :
  published_after_of ext arguments = Ok published_after ->
  search_videos ext (search_tool_query arguments published_after) = Ok results ->
  videos results = [] ->
  lookup "success" (VideoSearchTool_call ext arguments) = Some (VBool true)
  /\ lookup "videos_found" (VideoSearchTool_call ext arguments) = Some (VInt 0)
  /\ lookup "videos" (VideoSearchTool_call ext arguments) = Some (VList [])
  /\ lookup "average_engagement" (VideoSearchTool_call ext arguments)
     = Some (VStr (format_percent2 ext 0%Q)).
Proof.
  intros Hdate Hsearch Hempty.
  rewrite search_tool_call_unfold, Hdate. simpl. rewrite Hsearch. simpl.
  unfold average_engagement. rewrite Hempty. repeat split.
Qed.

Lemma search_tool_empty_result_witness :
  lookup "success"
    (VideoSearchTool_call Fixture.externals
       (mkArguments (Some "cooking") None None None None None None None None))
  = Some (VBool true)
  /\ lookup "average_engagement"
       (VideoSearchTool_call Fixture.externals
          (mkArguments (Some "cooking") None None None None None None None None))
     = Some (VStr "0.00%").
Proof.
  destruct (search_tool_empty_result Fixture.externals
              (mkArguments (Some "cooking") None None None None None None None None)
              None
              (mkSearchResult
                 (search_tool_query
                    (mkArguments (Some "cooking") None None None None None None
                                 None None) None)
                 [] 0)
              eq_refl ltac:(vm_compute; reflexivity) eq_refl)
    as (Hsuccess & _ & _ & Haverage).
  split; [exact Hsuccess|]. rewrite Haverage. vm_compute. reflexivity.
Defined.

(** X16.  When the date filter or the search of a handler raises,
    the handler returns a failure whose [error] is the exception text and
    whose [message] is fixed; the text shown by [call_tool] is that fixed
    message alone, so it is the same whatever the exception was. *)
Theorem upstream_failure_text
    (ext : Externals) (cfg : Config) (display : Display)
    (arguments : Arguments) (e : string) :
  ((published_after_of ext arguments = Raise e
    \/ exists published_after,
         published_after_of ext arguments = Ok published_after
         /\ search_videos ext (search_tool_query arguments published_after)
            = Raise e) ->
   VideoSearchTool_call ext arguments
   = [("success", VBool false); ("error", VStr e);
      ("message", VStr "Failed to search videos")]
   /\ call_tool ext cfg display true "search_videos" arguments
      = text_content "Tool execution failed: Failed to search videos")
  /\ ((market_published_after ext arguments = Raise e
       \/ exists published_after,
            market_published_after ext arguments = Ok published_after
            /\ search_videos ext (market_query_of arguments published_after)
               = Raise e) ->
      MarketAnalysisTool_call ext arguments
      = [("success", VBool false); ("error", VStr e);
         ("message", VStr "Failed to analyze market")]
      /\ call_tool ext cfg display true "analyze_market" arguments
         = text_content "Tool execution failed: Failed to analyze market").
Proof.
  split.
  - intros H.
    assert (Hcall : VideoSearchTool_call ext arguments
                    = [("success", VBool false); ("error", VStr e);
                       ("message", VStr "Failed to search videos")]).
    { rewrite search_tool_call_unfold.
      destruct H as [->|(pa & -> & Hs)]; simpl; [reflexivity|].
      now rewrite Hs. }
    split; [exact Hcall|].
    unfold call_tool.
    rewrite (call_tool_handled display (youtube_tools ext cfg) "search_videos"
               arguments (VideoSearchTool ext) eq_refl).
    simpl call. rewrite Hcall. reflexivity.
  - intros H.
    assert (Hcall : MarketAnalysisTool_call ext arguments
                    = [("success", VBool false); ("error", VStr e);
                       ("message", VStr "Failed to analyze market")]).
    { rewrite market_call_unfold.
      destruct H as [->|(pa & -> & Hs)]; simpl; [reflexivity|].
      now rewrite Hs. }
    split; [exact Hcall|].
    unfold call_tool.
    rewrite (call_tool_handled display (youtube_tools ext cfg) "analyze_market"
               arguments (MarketAnalysisTool ext) eq_refl).
    simpl call. rewrite Hcall. reflexivity.
Qed.

Lemma upstream_failure_text_witness :
  MarketAnalysisTool_call fixture_search_down (market_arguments "python" None)
  = [("success", VBool false); ("error", VStr "HttpError 403: quotaExceeded");
     ("message", VStr "Failed to analyze market")]
  /\ call_tool fixture_search_down Fixture.config Fixture.display true
       "analyze_market" (market_arguments "python" None)
     = text_content "Tool execution failed: Failed to analyze market".
Proof.
  apply (upstream_failure_text fixture_search_down Fixture.config Fixture.display
           (market_arguments "python" None) "HttpError 403: quotaExceeded").
  right. exists (mkDatetime 2024 5 2 12 0 0 0 (Some 0)).
  split; vm_compute; reflexivity.
Defined.

(** X17.  A market analysis succeeds exactly when its date filter
    and search go through and at least one video comes back; the result
    then echoes the topic and the timeframe and counts the videos analyzed,
    at least one. *)
Theorem market_success
    (ext : Externals) (arguments : Arguments) :
  (lookup "success" (MarketAnalysisTool_call ext arguments) = Some (VBool true)
   <-> exists published_after results,
         market_published_after ext arguments = Ok published_after
         /\ search_videos ext (market_query_of arguments published_after)
            = Ok results
         /\ videos results <> [])
  /\ (lookup "success" (MarketAnalysisTool_call ext arguments) = Some (VBool true) ->
      lookup "topic" (MarketAnalysisTool_call ext arguments)
        = Some (VStr (get_default (arg_topic arguments) ""))
      /\ lookup "timeframe_days" (MarketAnalysisTool_call ext arguments)
         = Some (VInt (get_default (arg_timeframe_days arguments) 30))
      /\ exists n,
           lookup "videos_analyzed" (MarketAnalysisTool_call ext arguments)
             = Some (VInt n)
           /\ 1 <= n).
Proof.
  rewrite market_call_unfold.
  destruct (market_published_after ext arguments) as [pa|e]; simpl.
  - destruct (search_videos ext _) as [results|e] eqn:Hs; simpl.
    + destruct (videos results) as [|video rest] eqn:Hv; simpl.
      * split; [|discriminate].
        split; [discriminate|].
        intros (pa' & results' & [= <-] & Hs' & Hne).
        rewrite Hs in Hs'. injection Hs' as <-. now destruct Hne.
      * split.
        -- split; [|reflexivity]. intros _. exists pa, results.
           split; [reflexivity|]. split; [exact Hs|]. rewrite Hv. discriminate.
        -- intros _. split; [reflexivity|]. split; [reflexivity|].
           eexists. split; [reflexivity|]. lia.
    + split; [|discriminate].
      split; [discriminate|].
      intros (pa' & results' & [= <-] & Hs' & _). congruence.
  - split; [|discriminate].
    split; [discriminate | intros (pa & results & H & _); discriminate].
Qed.

Lemma market_success_witness :
  lookup "topic"
    (MarketAnalysisTool_call Fixture.externals (market_arguments "python" None))
  = Some (VStr "python").
Proof.
  apply (market_success Fixture.externals (market_arguments "python" None)).
  vm_compute. reflexivity.
Defined.

(* ================================================================== *)
(** * Market analysis: level and insights *)
(* ================================================================== *)

Lemma nodup_length_le (l : list string) :
  (List.length (nodup string_dec l) <= List.length l)%nat.
Proof.
  induction l as [|x l IH]; simpl; [lia|].
  destruct (in_dec string_dec x l); simpl; lia.
Qed.

Lemma nunique_bounds (l : list string) :
  0 <= nunique l <= Z.of_nat (List.length l)
  /\ (l <> [] -> 1 <= nunique l).
Proof.
  unfold nunique. pose proof (nodup_length_le l). split; [lia|].
  intros Hne. destruct l as [|x l]; [now destruct Hne|].
  assert (Hin : In x (nodup string_dec (x :: l)))
    by (apply nodup_In; now left).
  destruct (nodup string_dec (x :: l)); [destruct Hin | simpl; lia].
Qed.

(** X18.  The number of unique creators of an analysis lies between
    1 and the number of videos analyzed; so a sample of at most 15 videos
    is always rated "Low", and a "High" rating needs at least 31 videos. *)
Theorem competition_bounded_by_sample
    (ext : Externals) (videos : list VideoData) (topic : string) :
  videos <> [] ->
  exists creators level,
    market_overview_get (_analyze_market_data ext videos topic) "unique_creators"
      = Some (VInt creators)
    /\ market_overview_get (_analyze_market_data ext videos topic)
         "competition_level" = Some (VStr level)
    /\ 1 <= creators <= Z.of_nat (List.length videos)
    /\ ((List.length videos <= 15)%nat -> level = "Low")
    /\ (level = "High" -> (31 <= List.length videos)%nat).
Proof.
  intros Hne.
  exists (nunique (map channel_title videos)),
         (competition_level_of (nunique (map channel_title videos))).
  split; [reflexivity|]. split; [reflexivity|].
  destruct (nunique_bounds (map channel_title videos)) as (Hrange & Hpos).
  rewrite length_map in Hrange.
  assert (Hone : 1 <= nunique (map channel_title videos)).
  { apply Hpos. destruct videos; [now destruct Hne | discriminate]. }
  split; [lia|]. unfold competition_level_of.
  destruct (Z.gtb_spec (nunique (map channel_title videos)) 30) as [H30|H30];
    destruct (Z.gtb_spec (nunique (map channel_title videos)) 15) as [H15|H15];
    split; intros Hcase; try reflexivity; try discriminate; lia.
Qed.

Lemma competition_bounded_by_sample_witness :
  market_overview_get
    (_analyze_market_data Fixture.externals (sample_videos 12 12) "python")
    "competition_level" = Some (VStr "Low").
Proof.
  destruct (competition_bounded_by_sample Fixture.externals (sample_videos 12 12)
              "python" ltac:(discriminate))
    as (creators & level & _ & Hlevel & _ & Hsmall & _).
  rewrite Hlevel, Hsmall; [reflexivity | vm_compute; lia].
Defined.

Lemma in_singleton_or_nil (b : bool) (x y : string) :
  In x (if b then [y] else []) <-> b = true /\ y = x.
Proof. destruct b; simpl; intuition discriminate. Qed.

(** X19.  The competition advisory among the insights agrees with
    the rating: the low-competition advice is given exactly for at most 15
    unique creators, the high-competition advice exactly for more than 30,
    and neither in between. *)
Theorem advisory_matches_level
    (ext : Externals) (videos : list VideoData) (topic : string) :
  let creators := nunique (map channel_title videos) in
  let insights :=
    _generate_market_insights ext videos topic (competition_level_of creators) in
  lookup "insights" (_analyze_market_data ext videos topic)
    = Some (VList (map VStr insights))
  /\ (In low_competition_insight insights <-> creators <= 15)
  /\ (In high_competition_insight insights <-> 30 < creators)
  /\ (15 < creators <= 30 ->
      ~ In low_competition_insight insights
      /\ ~ In high_competition_insight insights).
Proof.
  intros creators insights.
  split; [reflexivity|].
  assert (Hlow : In low_competition_insight insights <-> creators <= 15).
  { unfold insights, _generate_market_insights.
    rewrite !in_app_iff. unfold competition_level_of.
    destruct (std_exceeds_mean ext _);
      destruct (filter _ videos);
      destruct (count_published_last_week ext _) as [recent|]; simpl;
      try destruct (Qgtb _ _); simpl;
      destruct (Z.gtb_spec creators 30) as [H30|H30];
      destruct (Z.gtb_spec creators 15) as [H15|H15];
      simpl; unfold low_competition_insight;
      split; intros H; try lia; auto 10;
      repeat (destruct H as [H|H]; try discriminate H; try contradiction);
      try lia. }
  assert (Hhigh : In high_competition_insight insights <-> 30 < creators).
  { unfold insights, _generate_market_insights.
    rewrite !in_app_iff. unfold competition_level_of.
    destruct (std_exceeds_mean ext _);
      destruct (filter _ videos);
      destruct (count_published_last_week ext _) as [recent|]; simpl;
      try destruct (Qgtb _ _); simpl;
      destruct (Z.gtb_spec creators 30) as [H30|H30];
      destruct (Z.gtb_spec creators 15) as [H15|H15];
      simpl; unfold high_competition_insight;
      split; intros H; try lia; auto 10;
      repeat (destruct H as [H|H]; try discriminate H; try contradiction);
      try lia. }
  split; [exact Hlow|]. split; [exact Hhigh|].
  intros Hmid. rewrite Hlow, Hhigh. lia.
Qed.

Lemma advisory_matches_level_witness :
  ~ In low_competition_insight
      (_generate_market_insights Fixture.externals (sample_videos 20 20) "python"
         (competition_level_of (nunique (map channel_title (sample_videos 20 20)))))
  /\ ~ In high_competition_insight
        (_generate_market_insights Fixture.externals (sample_videos 20 20) "python"
           (competition_level_of
              (nunique (map channel_title (sample_videos 20 20))))).
Proof.
  apply (advisory_matches_level Fixture.externals (sample_videos 20 20) "python").
  vm_compute. split; [reflexivity | discriminate].
Defined.

Lemma Qgtb_inject (recent len : Z) :
  Qgtb (inject_Z recent) (inject_Z len * (3 # 10)) = true <-> 3 * len < 10 * recent.
Proof.
  unfold Qgtb. rewrite negb_true_iff.
  destruct (Qle_bool (inject_Z recent) (inject_Z len * (3 # 10))) eqn:E.
  - apply Qle_bool_iff in E. unfold Qle in E. simpl in E.
    split; [discriminate | lia].
  - split; [intros _|reflexivity].
    assert (H : ~ (inject_Z recent <= inject_Z len * (3 # 10))%Q)
      by (rewrite <- Qle_bool_iff, E; discriminate).
    unfold Qle in H. simpl in H. lia.
Qed.

(** X20.  The upload-timing insight is given exactly when the count
    of videos of the last 7 days succeeds and exceeds 30% of the sample; a
    failure of that count only omits the insight.  There are never more
    than four insights. *)
Theorem trending_insight_guarded
    (ext : Externals) (videos : list VideoData) (topic level : string) :
  (In trending_insight (_generate_market_insights ext videos topic level)
   <-> exists recent,
         count_published_last_week ext (map published_at videos) = Ok recent
         /\ 3 * Z.of_nat (List.length videos) < 10 * recent)
  /\ (List.length (_generate_market_insights ext videos topic level) <= 4)%nat.
Proof.
  unfold _generate_market_insights.
  split.
  - rewrite !in_app_iff.
    destruct (count_published_last_week ext _) as [recent|e]; simpl.
    + pose proof (Qgtb_inject recent (Z.of_nat (List.length videos))) as Hgt.
      destruct (Qgtb _ _).
      * split; [intros _; exists recent; split; [reflexivity | now apply Hgt]|].
        intros _. right. right. right. now left.
      * split.
        -- destruct (std_exceeds_mean ext _); destruct (filter _ videos);
             destruct (String.eqb level "Low");
             destruct (String.eqb level "High"); simpl;
             unfold trending_insight; intros H;
             repeat (destruct H as [H|H]; try discriminate H; try contradiction).
        -- intros (recent' & [= <-] & Hlt). apply Hgt in Hlt. discriminate.
    + split.
      * destruct (std_exceeds_mean ext _); destruct (filter _ videos);
          destruct (String.eqb level "Low");
          destruct (String.eqb level "High"); simpl;
          unfold trending_insight; intros H;
          repeat (destruct H as [H|H]; try discriminate H; try contradiction).
      * intros (recent & H & _). discriminate.
  - rewrite !length_app.
    destruct (std_exceeds_mean ext _); destruct (filter _ videos);
      destruct (String.eqb level "Low"); destruct (String.eqb level "High");
      destruct (count_published_last_week ext _); simpl;
      try destruct (Qgtb _ _); simpl; lia.
Qed.

Lemma trending_insight_guarded_witness :
  In trending_insight
     (_generate_market_insights Fixture.externals (sample_videos 3 3)
        "python" "Low").
Proof.
  apply (trending_insight_guarded Fixture.externals (sample_videos 3 3)
           "python" "Low").
  exists 3. split; vm_compute; reflexivity.
Defined.

(* ================================================================== *)
(** * System status: always an answer *)
(* ================================================================== *)

(** X21.  A status call always succeeds and always reports
    "healthy", whatever psutil does; the detailed blocks [system_metrics]
    and [api_status] are present exactly when [include_detailed] is true
    (absent counts as false). *)
Theorem status_always_succeeds
    (ext : Externals) (cfg : Config) (arguments : Arguments) :
  lookup "success" (SystemStatusTool_call ext cfg arguments) = Some (VBool true)
  /\ status_get (SystemStatusTool_call ext cfg arguments) "status"
     = Some (VStr "healthy")
  /\ status_get (SystemStatusTool_call ext cfg arguments) "server_name"
     = Some (VStr "youtube-intelligence")
  /\ (status_get (SystemStatusTool_call ext cfg arguments) "system_metrics" <> None
      <-> arg_include_detailed arguments = Some true)
  /\ (status_get (SystemStatusTool_call ext cfg arguments) "api_status" <> None
      <-> arg_include_detailed arguments = Some true).
Proof.
  unfold SystemStatusTool_call, status_get.
  destruct (arg_include_detailed arguments) as [[]|]; simpl;
    repeat split; try discriminate; try reflexivity; intros H; now destruct H.
Qed.

(** X22.  The detailed metrics are all or nothing: if one of the
    five psutil readings raises, the block is just the error entry, and the
    status call still succeeds; if all five succeed the block carries
    them. *)
Theorem metrics_degrade_in_place
    (ext : Externals) (cfg : Config) :
  ((exists e,
      cpu_percent ext = Raise e \/ memory_percent ext = Raise e
      \/ disk_usage_percent ext = Raise e \/ process_count ext = Raise e
      \/ network_connections ext = Raise e) ->
   _get_system_metrics ext = [("error", VStr "Unable to retrieve system metrics")]
   /\ status_get (SystemStatusTool_call ext cfg (status_arguments (Some true)))
        "system_metrics"
      = Some (VDict [("error", VStr "Unable to retrieve system metrics")])
   /\ lookup "success" (SystemStatusTool_call ext cfg (status_arguments (Some true)))
      = Some (VBool true))
  /\ (forall cpu memory disk processes connections,
        cpu_percent ext = Ok cpu -> memory_percent ext = Ok memory ->
        disk_usage_percent ext = Ok disk -> process_count ext = Ok processes ->
        network_connections ext = Ok connections ->
        _get_system_metrics ext
        = [("cpu_percent", VFloat cpu); ("memory_percent", VFloat memory);
           ("disk_usage_percent", VFloat disk); ("process_count", VInt processes);
           ("network_connections", VInt connections)]).
Proof.
  split.
  - intros (e & H).
    assert (Hm : _get_system_metrics ext
                 = [("error", VStr "Unable to retrieve system metrics")]).
    { unfold _get_system_metrics.
      destruct (cpu_percent ext); simpl;
        [|reflexivity].
      destruct (memory_percent ext); simpl; [|reflexivity].
      destruct (disk_usage_percent ext); simpl; [|reflexivity].
      destruct (process_count ext); simpl; [|reflexivity].
      destruct (network_connections ext); simpl; [|reflexivity].
      destruct H as [H|[H|[H|[H|H]]]]; discriminate. }
    split; [exact Hm|].
    unfold SystemStatusTool_call, status_get. simpl. rewrite Hm.
    split; reflexivity.
  - intros cpu memory disk processes connections H1 H2 H3 H4 H5.
    unfold _get_system_metrics. now rewrite H1, H2, H3, H4, H5.
Qed.

Lemma metrics_degrade_in_place_witness :
  status_get
    (SystemStatusTool_call Fixture.externals Fixture.config
       (status_arguments (Some true))) "system_metrics"
  = Some (VDict [("error", VStr "Unable to retrieve system metrics")]).
Proof.
  apply (metrics_degrade_in_place Fixture.externals Fixture.config).
  exists "(pid=1)". do 4 right. reflexivity.
Defined.

(** X23.  In a detailed status, the label of each credential in
    [api_status] agrees with its flag in the configuration block:
    "configured" exactly when the flag is true, "not_configured"
    otherwise. *)
Theorem api_status_matches_flags
    (ext : Externals) (cfg : Config) :
  exists api_status configuration,
    status_get (SystemStatusTool_call ext cfg (status_arguments (Some true)))
      "api_status" = Some (VDict api_status)
    /\ configuration_of (SystemStatusTool_call ext cfg (status_arguments (Some true)))
       = Some (VDict configuration)
    /\ (forall label flag,
          In (label, flag)
             [("youtube_api", "youtube_api_configured");
              ("firebase", "firebase_configured");
              ("claude_api", "claude_api_configured")] ->
          (lookup label api_status = Some (VStr "configured")
           /\ lookup flag configuration = Some (VBool true))
          \/ (lookup label api_status = Some (VStr "not_configured")
              /\ lookup flag configuration = Some (VBool false))).
Proof.
  exists (_check_api_status cfg), (configuration_block cfg).
  split; [reflexivity|]. split; [reflexivity|].
  intros label flag Hin. unfold _check_api_status, configuration_block,
    configured_label.
  simpl in Hin.
  destruct Hin as [[= <- <-]|[[= <- <-]|[[= <- <-]|[]]]]; simpl;
    [destruct (configured (YOUTUBE_API_KEY cfg))
    |destruct (configured (FIREBASE_PROJECT_ID cfg))
    |destruct (configured (ANTHROPIC_API_KEY cfg))]; auto.
Qed.





(* ================================================================== *)
(** * Category inference: what it never does *)
(* ================================================================== *)

Lemma lower_ascii_idempotent (c : ascii) : lower_ascii (lower_ascii c) = lower_ascii c.
Proof. destruct c as [[] [] [] [] [] [] [] []]; reflexivity. Qed.

Lemma lower_idempotent (s : string) : lower (lower s) = lower s.
Proof.
  induction s as [|c s IH]; simpl; [reflexivity|].
  now rewrite lower_ascii_idempotent, IH.
Qed.

Lemma content_of_lower (title description : string) :
  content_of title description = lower title ++ " " ++ lower description.
Proof. unfold content_of. now rewrite !lower_append. Qed.

(** X25.  Category inference ignores letter case: two titles, and
    two descriptions, that differ only in the case of ASCII letters get the
    same category; in particular a text and its lower-case form do. *)
Theorem categorize_ignores_case
    (title title' description description' : string) :
  lower title' = lower title ->
  lower description' = lower description ->
  _categorize_video title' description' = _categorize_video title description
  /\ _categorize_video (lower title) (lower description)
     = _categorize_video title description.
Proof.
  intros Ht Hd. rewrite !categorize_first_match, !content_of_lower.
  rewrite Ht, Hd, !lower_idempotent. split; reflexivity.
Qed.

Lemma categorize_ignores_case_witness :
  _categorize_video "BREAKING News" "LIVE" = _categorize_video "breaking news" "live".
Proof.
  apply (categorize_ignores_case "breaking news" "BREAKING News" "live" "LIVE");
    reflexivity.
Defined.

(** X26.  Category inference never answers [ENTERTAINMENT]: the
    category exists in the data model but no keyword rule leads to it, so
    no normalized video carries it. *)
Theorem entertainment_never_inferred
    (ext : Externals) (title description : string)
    (item : RawItem) (video : VideoData) :
  _categorize_video title description <> ENTERTAINMENT
  /\ (_parse_video_item ext item = Some video -> category video <> ENTERTAINMENT).
Proof.
  assert (Hnever : forall t d, _categorize_video t d <> ENTERTAINMENT).
  { intros t d. unfold _categorize_video.
    repeat (destruct (any_in _ _); [discriminate|]). discriminate. }
  split; [apply Hnever|].
  intros Hparse. rewrite (parse_video_item_category ext item video Hparse).
  apply Hnever.
Qed.

Lemma entertainment_never_inferred_witness :
  _categorize_video "Stand-up comedy night" "entertainment for everyone"
    <> ENTERTAINMENT
  /\ match _parse_video_item Fixture.externals Fixture.item_v1 with
     | Some video => category video <> ENTERTAINMENT
     | None => False
     end.
Proof.
  destruct (_parse_video_item Fixture.externals Fixture.item_v1) as [video|] eqn:E;
    [|vm_compute in E; discriminate].
  destruct (entertainment_never_inferred Fixture.externals
              "Stand-up comedy night" "entertainment for everyone"
              Fixture.item_v1 video) as (Hcat & Hvideo).
  split; [exact Hcat | exact (Hvideo E)].
Defined.

(* ================================================================== *)
(** * Engagement: sign *)
(* ================================================================== *)

Lemma engagement_rate_nonneg (s : VideoStats) :
  counts_nonneg s -> (0 <= engagement_rate s)%Q.
Proof.
  intros (Hv & Hl & Hc). unfold engagement_rate, engagement_rate_py, truediv.
  destruct (Z.eqb_spec (view_count s) 0) as [E|E]; simpl; [apply Qle_refl|].
  unfold Qdiv. apply Qmult_le_0_compat.
  - unfold Qle. simpl. lia.
  - apply Qinv_le_0_compat. unfold Qle. simpl. lia.
Qed.

Lemma fold_Qplus_nonneg (l : list Q) (acc : Q) :
  (0 <= acc)%Q -> Forall (fun x => (0 <= x)%Q) l ->
  (0 <= fold_left Qplus l acc)%Q.
Proof.
  revert acc. induction l as [|x l IH]; intros acc Hacc Hall; simpl; [exact Hacc|].
  inversion Hall as [|? ? Hx Hl]; subst. apply IH; [|exact Hl].
  replace 0%Q with (0 + 0)%Q by reflexivity. now apply Qplus_le_compat.
Qed.

(** X27.  With non-negative counts, the data model's invariant, the
    engagement rate of a video is non-negative, and so is the average
    engagement of a search result. *)
Theorem engagement_nonnegative (results : SearchResult) :
  Forall (fun video => counts_nonneg (stats video)) (videos results) ->
  Forall (fun video => (0 <= engagement_rate (stats video))%Q) (videos results)
  /\ (0 <= average_engagement results)%Q.
Proof.
  intros Hall.
  assert (Hrates : Forall (fun video => (0 <= engagement_rate (stats video))%Q)
                          (videos results)).
  { eapply Forall_impl; [|exact Hall]. intros video. apply engagement_rate_nonneg. }
  split; [exact Hrates|].
  unfold average_engagement.
  destruct (videos results) as [|video rest] eqn:Hv; [apply Qle_refl|].
  unfold Qdiv. apply Qmult_le_0_compat.
  - unfold Qsum. apply fold_Qplus_nonneg; [apply Qle_refl|].
    apply Forall_map. exact Hrates.
  - apply Qinv_le_0_compat. unfold Qle. simpl. lia.
Qed.

Lemma engagement_nonnegative_witness :
  (0 <= average_engagement
          (mkSearchResult (market_search_query "python" 50 Fixture.now)
             (parse_items Fixture.externals [Fixture.item_v1; Fixture.item_v3]) 3))%Q.
Proof.
  apply (engagement_nonnegative
           (mkSearchResult (market_search_query "python" 50 Fixture.now)
              (parse_items Fixture.externals [Fixture.item_v1; Fixture.item_v3]) 3)).
  vm_compute. repeat constructor; discriminate.
Defined.

(* ================================================================== *)
(** * Display templates on handler results *)
(* ================================================================== *)

Section TemplateFacts.

Variable display : Display.
Variable float_commas : Q -> string.
Variable ext : Externals.

Lemma video_lines_of_handler (videos : list VideoData) (i : Z) :
  exists body,
    video_lines display float_commas i (map (video_data_of ext) videos) = Ok body
    /\ List.length body = (7 * List.length videos)%nat.
Proof.
  revert i. induction videos as [|video rest IH]; intros i.
  - exists []. split; reflexivity.
  - destruct (IH (i + 1)) as (body & Hbody & Hlen).
    eexists. split.
    + cbn [map video_lines]. unfold str_at, commas_at, video_data_of.
      cbn [value_subscript lookup String.eqb Ascii.eqb Bool.eqb bind
           format_commas_value].
      fold (video_data_of ext). rewrite Hbody. cbn [bind]. reflexivity.
    + cbn [List.length app]. rewrite Hlen. lia.
Qed.

Lemma firstn_ten_length {A : Type} (l : list A) :
  List.length (firstn 10 l) = Nat.min 10 (List.length l).
Proof. apply length_firstn. Qed.

End TemplateFacts.

(** X28.  The search template never raises on what the search
    handler returns: every video dictionary carries the keys the template
    subscripts and integer counts for the thousands format.  The text has
    5 header lines and 7 lines for each of the first 10 videos, so at most
    75 lines however many videos were found; a server whose search template
    is this function therefore never answers a search with the
    formatting-failed fallback. *)
Theorem search_display_total
    (display : Display) (float_commas : Q -> string)
    (ext : Externals) (arguments : Arguments) :
  exists lines,
    format_video_search_lines display float_commas (VideoSearchTool_call ext arguments)
      = Ok lines
    /\ (List.length lines <= 75)%nat
    /\ (forall published_after results,
          published_after_of ext arguments = Ok published_after ->
          search_videos ext (search_tool_query arguments published_after)
            = Ok results ->
          List.length lines
          = (5 + 7 * Nat.min 10 (List.length (videos results)))%nat)
    /\ (format_video_search_response display
          = format_video_search_response_src display float_commas ->
        format_tool_response display "search_videos"
          (VideoSearchTool_call ext arguments)
        = join newline lines).
Proof.
  assert (Hshape :
    exists shown,
      first_ten (dict_get (VideoSearchTool_call ext arguments) "videos" (VList []))
        = Ok (map (video_data_of ext) shown)
      /\ (List.length shown <= 10)%nat
      /\ (forall published_after results,
            published_after_of ext arguments = Ok published_after ->
            search_videos ext (search_tool_query arguments published_after)
              = Ok results ->
            List.length shown = Nat.min 10 (List.length (videos results)))).
  { rewrite search_tool_call_unfold.
    destruct (published_after_of ext arguments) as [pa|e]; cbn [bind try_except].
    - destruct (search_videos ext _) as [results|e] eqn:Hs; cbn [bind try_except].
      + exists (firstn 10 (videos results)).
        split; [unfold dict_get, first_ten, get_default;
                cbn [lookup String.eqb Ascii.eqb Bool.eqb];
                now rewrite firstn_map|].
        split; [rewrite length_firstn; lia|].
        intros pa' results' [= <-] Hs'. rewrite Hs in Hs'.
        injection Hs' as <-. apply length_firstn.
      + exists []. split; [reflexivity|]. split; [simpl; lia|].
        intros pa' results' [= <-] Hs'. congruence.
    - exists []. split; [reflexivity|]. split; [simpl; lia|]. discriminate. }
  destruct Hshape as (shown & Hshown & Hten & Hcount).
  destruct (video_lines_of_handler display float_commas ext shown 1)
    as (body & Hbody & Hlen).
  assert (Hlines :
    exists header,
      List.length header = 5%nat
      /\ format_video_search_lines display float_commas
           (VideoSearchTool_call ext arguments) = Ok (header ++ body)%list).
  { unfold format_video_search_lines. rewrite Hshown. cbn [bind].
    rewrite Hbody. cbn [bind]. eexists. split; [|reflexivity]. reflexivity. }
  destruct Hlines as (header & Hheader & Hlines).
  exists (header ++ body)%list.
  split; [exact Hlines|].
  split; [rewrite length_app; lia|].
  split.
  - intros pa results Hpa Hs. rewrite length_app, Hheader, Hlen.
    now rewrite (Hcount pa results Hpa Hs).
  - intros Htemplate. unfold format_tool_response. cbn [String.eqb Ascii.eqb Bool.eqb].
    rewrite Htemplate. unfold format_video_search_response_src.
    rewrite Hlines. reflexivity.
Qed.

Lemma search_display_total_witness :
  format_video_search_response_src Fixture.display (fun _ => "")
    (VideoSearchTool_call Fixture.externals
       (mkArguments (Some "cooking") None None None None None None None None))
  = Ok (join newline
          ["**YouTube Video Search Results**"; "Query: cooking";
           "Found: 0 videos"; "Average Engagement: 0.00%"; ""]).
Proof.
  destruct (search_display_total Fixture.display (fun _ => "") Fixture.externals
              (mkArguments (Some "cooking") None None None None None None None None))
    as (lines & Hlines & _ & Hcount & _).
  pose proof (Hcount None
                (mkSearchResult
                   (search_tool_query
                      (mkArguments (Some "cooking") None None None None None None
                                   None None) None) [] 0)
                eq_refl ltac:(vm_compute; reflexivity)) as Hfive.
  unfold format_video_search_response_src. rewrite Hlines. cbn [bind].
  vm_compute in Hlines. injection Hlines as <-. reflexivity.
Defined.

Lemma status_lines_of_handler
    (display : Display) (ext : Externals) (cfg : Config) (arguments : Arguments) :
  format_system_status_lines display (SystemStatusTool_call ext cfg arguments)
  = Ok (app
        [bolt ++ " **youtube-intelligence System Status**";
         "Version: 1.0.0";
         "Status: healthy";
         "Timestamp: " ++ utcnow_isoformat ext ++ "Z";
         "";
         configuration_heading;
         bullet ++ " YouTube API: "
           ++ (if configured (YOUTUBE_API_KEY cfg)
               then "Configured" else "Not Configured");
         bullet ++ " Firebase: "
           ++ (if configured (FIREBASE_PROJECT_ID cfg)
               then "Configured" else "Not Configured");
         bullet ++ " Claude API: "
           ++ (if configured (ANTHROPIC_API_KEY cfg)
               then "Configured" else "Not Configured");
         bullet ++ " Max Videos Per Search: 50";
         ""]
        match arg_include_detailed arguments,
                 cpu_percent ext, memory_percent ext, disk_usage_percent ext,
                 process_count ext, network_connections ext with
           | Some true, Ok cpu, Ok memory, Ok disk, Ok _, Ok _ =>
               [metrics_heading;
                bullet ++ " CPU Usage: " ++ str_other display (VFloat cpu) ++ "%";
                bullet ++ " Memory Usage: "
                  ++ str_other display (VFloat memory) ++ "%";
                bullet ++ " Disk Usage: " ++ str_other display (VFloat disk) ++ "%"]
           | _, _, _, _, _, _ => []
           end).
Proof.
  unfold SystemStatusTool_call, format_system_status_lines, _get_system_metrics.
  destruct (arg_include_detailed arguments) as [[]|];
    [destruct (cpu_percent ext); [destruct (memory_percent ext);
       [destruct (disk_usage_percent ext); [destruct (process_count ext);
          [destruct (network_connections ext)|]|]|]|]| |];
    reflexivity.
Qed.

(** X29.  The status template never raises on what the status
    handler returns.  Its text shows, for each credential, "Configured" or
    "Not Configured" according to the flag, and the maximal search size;
    the system-metrics section appears exactly when detailed metrics were
    requested and all five psutil readings succeeded, so degraded metrics
    are silently left out. *)
Theorem status_display_total
    (display : Display) (ext : Externals) (cfg : Config) (arguments : Arguments) :
  exists lines,
    format_system_status_lines display (SystemStatusTool_call ext cfg arguments)
      = Ok lines
    /\ In (bullet ++ " YouTube API: "
           ++ (if configured (YOUTUBE_API_KEY cfg)
               then "Configured" else "Not Configured")) lines
    /\ In (bullet ++ " Firebase: "
           ++ (if configured (FIREBASE_PROJECT_ID cfg)
               then "Configured" else "Not Configured")) lines
    /\ In (bullet ++ " Claude API: "
           ++ (if configured (ANTHROPIC_API_KEY cfg)
               then "Configured" else "Not Configured")) lines
    /\ In (bullet ++ " Max Videos Per Search: 50") lines
    /\ (In metrics_heading lines
        <-> arg_include_detailed arguments = Some true
            /\ exists cpu memory disk processes connections,
                 cpu_percent ext = Ok cpu /\ memory_percent ext = Ok memory
                 /\ disk_usage_percent ext = Ok disk
                 /\ process_count ext = Ok processes
                 /\ network_connections ext = Ok connections).
Proof.
  eexists. split; [apply status_lines_of_handler|].
  rewrite !in_app_iff.
  split; [left; simpl; auto 12|].
  split; [left; simpl; auto 12|].
  split; [left; simpl; auto 12|].
  split; [left; simpl; auto 12|].
  split.
  - intros [H|H].
    + exfalso. unfold metrics_heading, configuration_heading, bolt, bullet in H.
      cbn [In] in H.
      destruct (configured (YOUTUBE_API_KEY cfg));
        destruct (configured (FIREBASE_PROJECT_ID cfg));
        destruct (configured (ANTHROPIC_API_KEY cfg));
        repeat (destruct H as [H|H]; [discriminate H|]); exact H.
    + destruct (arg_include_detailed arguments) as [[]|]; try destruct H.
      destruct (cpu_percent ext) as [cpu|]; [|destruct H].
      destruct (memory_percent ext) as [memory|]; [|destruct H].
      destruct (disk_usage_percent ext) as [disk|]; [|destruct H].
      destruct (process_count ext) as [processes|]; [|destruct H].
      destruct (network_connections ext) as [connections|]; [|destruct H].
      split; [reflexivity|]. exists cpu, memory, disk, processes, connections.
      repeat split.
  - intros (-> & cpu & memory & disk & processes & connections
            & -> & -> & -> & -> & ->).
    right. now left.
Qed.

Lemma status_display_total_witness :
  ~ In metrics_heading
      match format_system_status_lines Fixture.display
              (SystemStatusTool_call Fixture.externals Fixture.config
                 (status_arguments (Some true))) with
      | Ok lines => lines
      | Raise _ => [metrics_heading]
      end.
Proof.
  destruct (status_display_total Fixture.display Fixture.externals Fixture.config
              (status_arguments (Some true)))
    as (lines & -> & _ & _ & _ & _ & Hmetrics).
  intros Hin. apply Hmetrics in Hin.
  destruct Hin as (_ & cpu & memory & disk & processes & connections
                   & _ & _ & _ & _ & Hconn).
  discriminate Hconn.
Defined.

(* ================================================================== *)
(** * Channel information *)
(* ================================================================== *)

(** X30.  [get_channel_info] never raises: a provider failure and
    an empty response both give [None].  When it returns a channel, that
    channel carries the requested id and is built from the first item of
    the response alone: its title is that item's title, it has a creation
    date exactly when the item has a [publishedAt], and all three counts
    are 0 when the item has no statistics. *)
Theorem channel_info_from_first_item
    (ext : Externals) (channels : string -> result (list RawChannel))
    (channel_id : string) :
  (forall e, channels channel_id = Raise e ->
             get_channel_info ext channels channel_id = None)
  /\ (channels channel_id = Ok [] ->
      get_channel_info ext channels channel_id = None)
  /\ (forall channel,
        get_channel_info ext channels channel_id = Some channel ->
        ch_channel_id channel = channel_id
        /\ exists item rest snip,
             channels channel_id = Ok (item :: rest)
             /\ channel_snippet item = Some snip
             /\ raw_title snip = Some (ch_title channel)
             /\ (created_at channel = None <-> raw_publishedAt snip = None)
             /\ (channel_statistics item = None ->
                 subscriber_count channel = 0
                 /\ video_count channel = 0
                 /\ ch_view_count channel = 0)).
Proof.
  unfold get_channel_info, get_channel_info_body.
  split; [intros e ->; reflexivity|].
  split; [intros ->; reflexivity|].
  intros channel.
  destruct (channels channel_id) as [[|item rest]|e]; simpl; try discriminate.
  destruct (channel_snippet item) as [snip|] eqn:Hsnip; simpl; [|discriminate].
  destruct (raw_publishedAt snip) as [published|] eqn:Hpub; simpl.
  - destruct (fromisoformat ext _) as [instant|]; simpl; [|discriminate].
    destruct (raw_title snip) as [ttl|] eqn:Httl; simpl; [|discriminate].
    destruct (channel_statistics item) as [stat|] eqn:Hstat; simpl.
    + destruct (int_stat ext _); simpl; [|discriminate].
      destruct (int_stat ext _); simpl; [|discriminate].
      destruct (int_stat ext _); simpl; [|discriminate].
      intros [= <-]. simpl. split; [reflexivity|].
      exists item, rest, snip. rewrite Hsnip, Httl, Hpub.
      repeat split; try discriminate; congruence.
    + intros [= <-]. simpl. split; [reflexivity|].
      exists item, rest, snip. rewrite Hsnip, Httl, Hpub.
      repeat split; try discriminate; congruence.
  - destruct (raw_title snip) as [ttl|] eqn:Httl; simpl; [|discriminate].
    destruct (channel_statistics item) as [stat|] eqn:Hstat; simpl.
    + destruct (int_stat ext _); simpl; [|discriminate].
      destruct (int_stat ext _); simpl; [|discriminate].
      destruct (int_stat ext _); simpl; [|discriminate].
      intros [= <-]. simpl. split; [reflexivity|].
      exists item, rest, snip. rewrite Hsnip, Httl, Hpub.
      repeat split; try discriminate; congruence.
    + intros [= <-]. simpl. split; [reflexivity|].
      exists item, rest, snip. rewrite Hsnip, Httl, Hpub.
      repeat split; try discriminate; congruence.
Qed.

Lemma channel_info_from_first_item_witness :
  match get_channel_info Fixture.externals fixture_channels "UC-py-weekly" with
  | Some channel =>
      ch_channel_id channel = "UC-py-weekly"
      /\ ch_title channel = "Code School"
      /\ created_at channel = None
      /\ subscriber_count channel = 0
  | None => False
  end.
Proof.
  destruct (get_channel_info Fixture.externals fixture_channels "UC-py-weekly")
    as [channel|] eqn:E; [|vm_compute in E; discriminate].
  destruct (channel_info_from_first_item Fixture.externals fixture_channels
              "UC-py-weekly") as (_ & _ & Hsome).
  destruct (Hsome channel E)
    as (Hid & item & rest & snip & Hresp & Hsnip & Httl & Hdate & Hstats).
  injection Hresp as <- <-. injection Hsnip as <-. injection Httl as Httl.
  split; [exact Hid|]. split; [now symmetry|].
  split; [now apply Hdate|]. now apply Hstats.
Defined.

(* ================================================================== *)
(** * Trending videos *)
(* ================================================================== *)

(** X5.  [get_trending_videos] never raises and never asks for
    more than 50 videos: a provider failure gives the empty list, and
    otherwise the result is exactly the chart items that normalize, so with
    a provider that returns at most [maxResults] items it holds at most
    min(max_results, 50) videos. *)
Theorem trending_videos_bounded
    (ext : Externals) (chart : string -> Z -> result (list RawItem))
    (region_code : string) (max_results : Z) :
  (forall e,
     chart region_code (Z.min max_results 50) = Raise e ->
     get_trending_videos ext chart region_code max_results = [])
  /\ (forall fetched,
        chart region_code (Z.min max_results 50) = Ok fetched ->
        (forall video,
           In video (get_trending_videos ext chart region_code max_results)
           <-> exists item,
                 In item fetched /\ _parse_video_item ext item = Some video)
        /\ (Z.of_nat (List.length fetched) <= Z.max 0 (Z.min max_results 50) ->
            (List.length (get_trending_videos ext chart region_code max_results)
             <= 50)%nat
            /\ Z.of_nat
                 (List.length (get_trending_videos ext chart region_code max_results))
               <= Z.max 0 max_results)).
Proof.
  unfold get_trending_videos. split.
  - intros e ->. reflexivity.
  - intros fetched ->. simpl.
    split; [intros video; apply parse_items_In|].
    intros Hcap. pose proof (parse_items_length ext fetched). lia.
Qed.

Lemma trending_videos_bounded_witness :
  get_trending_videos Fixture.externals fixture_chart "XX" 25 = []
  /\ (List.length (get_trending_videos Fixture.externals fixture_chart "US" 500)
      <= 50)%nat.
Proof.
  destruct (trending_videos_bounded Fixture.externals fixture_chart "XX" 25)
    as (Hdown & _).
  destruct (trending_videos_bounded Fixture.externals fixture_chart "US" 500)
    as (_ & Hup).
  split; [apply (Hdown "HttpError 400: invalid region code"); reflexivity|].
  destruct (Hup (map snd Fixture.catalog) eq_refl) as (_ & Hbound).
  apply Hbound. simpl. lia.
Defined.
